(** * SaoPauloMontrealAQI: the AQI pipeline of [p.py]

    A shallow embedding of the program: JSON-shaped Python values, the
    categorizer [aqi_category_us], the nested lookup [safe_get], the fetch
    wrapper [fetch_waqi_city], the parser [parse_city_data], the chart
    preparation of [plot_aqi_bar] and the driver [main], followed by the
    properties of the written specification that they satisfy or break. *)

From Stdlib Require Import ZArith QArith Qround String Ascii List Bool.
From Stdlib Require Import Lia Lqa Permutation Sorted DecimalString.
Import ListNotations.

Set Warnings "-register-all".

Open Scope string_scope.
Open Scope Z_scope.

(** ** Python values *)

(** A Python [float]: a finite value (every binary64 number is a rational),
    the two infinities, or not-a-number.  Comparisons of a float with an
    [int] are exact in Python, so they are comparisons of rationals here. *)
Inductive pyfloat : Type :=
| Fin (q : Q)
| PInf
| NInf
| NaN.

(** What [json] decoding produces, which is also what the program builds:
    [None], [bool], [int], [float], [str], [list], and [dict] with [str]
    keys in insertion order. *)
Inductive pyval : Type :=
| PyNone
| PyBool (b : bool)
| PyInt (n : Z)
| PyFloat (f : pyfloat)
| PyStr (s : string)
| PyList (items : list pyval)
| PyDict (entries : list (string * pyval)).

(** The keys handed to [safe_get]: the program passes strings and the
    integer [0]. *)
Inductive key : Type :=
| KStr (s : string)
| KInt (i : Z).

(** ** Exceptions *)

Inductive exn_class : Type :=
| TypeError
| ValueError
| OverflowError
| KeyError
| IndexError
| AttributeError
| RuntimeError
| OtherException (name : string).

(** An exception object, of a class derived from [Exception] (the ones
    [except Exception] catches): its class and [str(e)]. *)
Record exn : Type := Exn { exn_cls : exn_class; exn_str : string }.

Inductive result (A : Type) : Type :=
| Ok (a : A)
| Raise (e : exn).
Arguments Ok {A} a.
Arguments Raise {A} e.

Definition bind {A B : Type} (m : result A) (f : A -> result B) : result B :=
  match m with
  | Ok a => f a
  | Raise e => Raise e
  end.

Declare Scope py_scope.
Delimit Scope py_scope with py.
Notation "x <- m ;; k" := (bind m (fun x => k))
  (at level 61, m at next level, right associativity) : py_scope.
Open Scope py_scope.

(** [try: ... except Exception: ...] around a pure computation. *)
Definition try_except {A : Type} (body : result A) (handler : exn -> A) : A :=
  match body with
  | Ok a => a
  | Raise e => handler e
  end.

(** ** Built-ins *)

Definition type_name (v : pyval) : string :=
  match v with
  | PyNone => "NoneType"
  | PyBool _ => "bool"
  | PyInt _ => "int"
  | PyFloat _ => "float"
  | PyStr _ => "str"
  | PyList _ => "list"
  | PyDict _ => "dict"
  end.

(** The built-ins that are taken as they come: [float] applied to a [str]
    (it returns a float, possibly [nan] or an infinity, or raises
    [ValueError]), [str] applied to a value, and the sum of two floats,
    rounded as binary64 rounds it. *)
Class Builtins : Type := {
  float_of_str : string -> result pyfloat;
  py_str : pyval -> string;
  float_add : pyfloat -> pyfloat -> pyfloat
}.

(** [float(n)] for an [int]: exact up to 53 significant bits, rounded to
    nearest (ties to even) beyond, [OverflowError] from [2**1024] on. *)
Definition float_of_int (n : Z) : result pyfloat :=
  let a := Z.abs n in
  let e := Z.log2 a + 1 - 53 in
  if e <=? 0 then Ok (Fin (inject_Z n))
  else
    let q := Z.shiftr a e in
    let r := Z.land a (Z.ones e) in
    let half := Z.shiftl 1 (e - 1) in
    let q' := if (half <? r) || ((r =? half) && Z.odd q) then q + 1 else q in
    let m := Z.shiftl q' e in
    if 2 ^ 1024 <=? m
    then Raise (Exn OverflowError "int too large to convert to float")
    else Ok (Fin (inject_Z (Z.sgn n * m))).

Definition float_type_error (v : pyval) : exn :=
  Exn TypeError
      ("float() argument must be a string or a real number, not '"
         ++ type_name v ++ "'").

(** [float(v)]. *)
Definition py_float `{Builtins} (v : pyval) : result pyfloat :=
  match v with
  | PyBool b => Ok (Fin (if b then 1%Q else 0%Q))
  | PyInt n => float_of_int n
  | PyFloat f => Ok f
  | PyStr s => float_of_str s
  | PyNone | PyList _ | PyDict _ => Raise (float_type_error v)
  end.

(** Truth value testing, as [not v] and [v or w] use it. *)
Definition py_truthy (v : pyval) : bool :=
  match v with
  | PyNone => false
  | PyBool b => b
  | PyInt n => negb (n =? 0)
  | PyFloat (Fin q) => negb (Qeq_bool q 0)
  | PyFloat _ => true
  | PyStr s => negb (String.eqb s "")
  | PyList l => match l with [] => false | _ :: _ => true end
  | PyDict d => match d with [] => false | _ :: _ => true end
  end.

(** [f <= n] for a float [f] and an int [n]; false whenever [f] is NaN. *)
Definition float_le_int (f : pyfloat) (n : Z) : bool :=
  match f with
  | Fin q => Qle_bool q (inject_Z n)
  | NInf => true
  | PInf => false
  | NaN => false
  end.

Definition isnan (f : pyfloat) : bool :=
  match f with
  | NaN => true
  | _ => false
  end.

(** [pd.notna] and [pd.isna] on a float scalar. *)
Definition pd_notna (f : pyfloat) : bool := negb (isnan f).
Definition pd_isna (f : pyfloat) : bool := isnan f.

(** Dictionaries: first binding of a key. *)
Fixpoint dict_find (d : list (string * pyval)) (s : string) : option pyval :=
  match d with
  | [] => None
  | (k, v) :: d' => if String.eqb k s then Some v else dict_find d' s
  end.

(** [k in d] for a dict with [str] keys: an [int] never equals a [str]. *)
Definition dict_contains (d : list (string * pyval)) (k : key) : bool :=
  match k with
  | KStr s => match dict_find d s with Some _ => true | None => false end
  | KInt _ => false
  end.

Definition key_repr (k : key) : string :=
  match k with
  | KStr s => "'" ++ s ++ "'"
  | KInt i => NilZero.string_of_int (Z.to_int i)
  end.

(** [d[k]]: raises [KeyError] on an absent key. *)
Definition dict_getitem (d : list (string * pyval)) (k : key) : result pyval :=
  match k with
  | KStr s =>
      match dict_find d s with
      | Some v => Ok v
      | None => Raise (Exn KeyError (key_repr k))
      end
  | KInt _ => Raise (Exn KeyError (key_repr k))
  end.

(** [l[i]] on a list: negative indices count from the end, anything out of
    range raises [IndexError]. *)
Definition list_getitem (l : list pyval) (i : Z) : result pyval :=
  let n := Z.of_nat (List.length l) in
  let j := if i <? 0 then i + n else i in
  if (j <? 0) || (n <=? j)
  then Raise (Exn IndexError "list index out of range")
  else match nth_error l (Z.to_nat j) with
       | Some v => Ok v
       | None => Raise (Exn IndexError "list index out of range")
       end.

(** ** [p.py] *)

Definition WAQI_BASE : string := "https://api.waqi.info".

Record CityQuery : Type := {
  label : string;
  waqi_feed_path : string
}.

(** [aqi_category_us]: first match over ascending non-strict thresholds. *)
Definition aqi_category_us (aqi : pyfloat) : string :=
  if float_le_int aqi 50 then "Good"
  else if float_le_int aqi 100 then "Moderate"
  else if float_le_int aqi 150 then "Unhealthy (Sensitive)"
  else if float_le_int aqi 200 then "Unhealthy"
  else if float_le_int aqi 300 then "Very Unhealthy"
  else "Hazardous".

(** [safe_get(d, *keys)]: the loop over [keys], [cur] starting at [d]. *)
Fixpoint safe_get (cur : pyval) (keys : list key) : result pyval :=
  match keys with
  | [] => Ok cur
  | k :: keys' =>
      match cur with
      | PyDict d =>
          if negb (dict_contains d k) then Ok PyNone
          else cur' <- dict_getitem d k ;; safe_get cur' keys'
      | _ => Ok PyNone
      end
  end.

(** The summary row: the dict literal built by [parse_city_data], with the
    ["Error"] key that only the failure row of [main] carries. *)
Record SummaryRecord : Type := {
  City : string;
  AQI : pyfloat;
  Category : string;
  ObservedTime : pyval;
  Station_Area : pyval;
  ReportedCity : pyval;
  Lat : pyval;
  Lon : pyval;
  Error : option string
}.

(** The pollutants row: the ["City"] key and the other keys the dict holds,
    in order; [None] is Python's [None]. *)
Record PollutantRecord : Type := {
  PCity : string;
  components : list (string * option pyfloat)
}.

Section Parser.
Context `{Builtins}.

(** [geo[i] if isinstance(geo, list) and len(geo) >= 2 else None]. *)
Definition geo_item (geo : pyval) (i : Z) : result pyval :=
  match geo with
  | PyList l =>
      if 2 <=? Z.of_nat (List.length l) then list_getitem l i else Ok PyNone
  | _ => Ok PyNone
  end.

(** The nested helper [iaqi_val] of [parse_city_data]. *)
Definition iaqi_val (iaqi : pyval) (k : string) : result (option pyfloat) :=
  v <- safe_get iaqi [KStr k; KStr "v"] ;;
  Ok (try_except (f <- py_float v ;; Ok (Some f)) (fun _ => None)).

Definition parse_city_data (label : string) (data : pyval)
  : result (SummaryRecord * PollutantRecord) :=
  aqi <- safe_get data [KStr "aqi"] ;;
  let aqi_num := try_except (py_float aqi) (fun _ => NaN) in
  time_s <- safe_get data [KStr "time"; KStr "s"] ;;
  station <- safe_get data [KStr "attributions"; KInt 0; KStr "name"] ;;
  city_name <- safe_get data [KStr "city"; KStr "name"] ;;
  geo <- safe_get data [KStr "city"; KStr "geo"] ;;
  lat <- geo_item geo 0 ;;
  lon <- geo_item geo 1 ;;
  station <- (if negb (py_truthy station)
              then safe_get data [KStr "city"; KStr "name"]
              else Ok station) ;;
  let summary :=
    {| City := label;
       AQI := aqi_num;
       Category := if pd_notna aqi_num then aqi_category_us aqi_num
                   else "Unknown";
       ObservedTime := time_s;
       Station_Area := station;
       ReportedCity := city_name;
       Lat := lat;
       Lon := lon;
       Error := None |} in
  iaqi0 <- safe_get data [KStr "iaqi"] ;;
  let iaqi := if py_truthy iaqi0 then iaqi0 else PyDict [] in
  pm25 <- iaqi_val iaqi "pm25" ;;
  pm10 <- iaqi_val iaqi "pm10" ;;
  o3 <- iaqi_val iaqi "o3" ;;
  no2 <- iaqi_val iaqi "no2" ;;
  so2 <- iaqi_val iaqi "so2" ;;
  co <- iaqi_val iaqi "co" ;;
  let pollutants :=
    {| PCity := label;
       components := [("pm25", pm25); ("pm10", pm10); ("o3", o3);
                      ("no2", no2); ("so2", so2); ("co", co)] |} in
  Ok (summary, pollutants).

End Parser.

(** ** Effects *)

(** The calls into matplotlib, with the arguments the program passes. *)
Inductive plot_call : Type :=
| Figure (width height : Q)
| Gca
| Bar (x : list string) (height : list pyfloat)
| SetTitle (text : string)
| SetYlabel (text : string)
| SetYlim (bottom top : pyval)
| Text (x : nat) (y : pyval) (text : string)
| AxesText (x y : Q) (text : string)
| TightLayout
| Savefig (path : string) (dpi : Z)
| Close.

Inductive event : Type :=
| Print (text : string)
| PrintSummary (rows : list SummaryRecord)
| PrintPollutants (rows : list PollutantRecord)
| HttpGet (url : string)
| Sleep (seconds : Q)
| Plt (call : plot_call).

(** Effectful code: the events so far, threaded through, and a value or an
    exception. *)
Definition io (A : Type) : Type := list event -> list event * result A.

Definition io_ret {A : Type} (a : A) : io A := fun tr => (tr, Ok a).

Definition io_bind {A B : Type} (m : io A) (f : A -> io B) : io B :=
  fun tr =>
    match m tr with
    | (tr', Ok a) => f a tr'
    | (tr', Raise e) => (tr', Raise e)
    end.

Definition emit (ev : event) : io unit := fun tr => ((tr ++ [ev])%list, Ok tt).

Definition lift {A : Type} (r : result A) : io A := fun tr => (tr, r).

(** [try: body except Exception as e: handler(e)]. *)
Definition io_try {A : Type} (body : io A) (handler : exn -> io A) : io A :=
  fun tr =>
    match body tr with
    | (tr', Ok a) => (tr', Ok a)
    | (tr', Raise e) => handler e tr'
    end.

Notation "x <~ m ;; k" := (io_bind m (fun x => k))
  (at level 61, m at next level, right associativity) : py_scope.

(** The process environment and the network, as the run finds them:
    [http_get url timeout] stands for [requests.get], [raise_for_status] and
    [r.json()] together. *)
Class World : Type := {
  getenv : string -> option string;
  http_get : string -> Z -> result pyval
}.

(** The plotting library, as the run finds it: it answers a call, given
    everything that happened before, by returning or by raising. *)
Class Matplotlib : Type := {
  plt_call : list event -> plot_call -> result unit
}.

(** A call into the library: it is made, and its answer is the outcome. *)
Definition plt `{Matplotlib} (call : plot_call) : io unit :=
  fun tr => ((tr ++ [Plt call])%list, plt_call tr call).

Definition nl : string := String "010"%char "".
Definition dquote : string := String "034"%char "".

Definition token_diagnostic : string :=
  "ERROR: WAQI_TOKEN environment variable not set." ++ nl
  ++ "Get a free token from WAQI and set it, e.g.:" ++ nl
  ++ "  setx WAQI_TOKEN " ++ dquote ++ "YOUR_TOKEN" ++ dquote ++ nl.

Definition cities : list CityQuery :=
  [ {| label := "São Paulo"; waqi_feed_path := "sao%20paulo" |};
    {| label := "Montreal"; waqi_feed_path := "montreal" |};
    {| label := "Seattle"; waqi_feed_path := "seattle" |} ].

(** ** The chart *)

(** [a <= b] on floats; false when either side is NaN. *)
Definition float_leb (a b : pyfloat) : bool :=
  match a, b with
  | NaN, _ | _, NaN => false
  | NInf, _ => true
  | _, PInf => true
  | Fin x, Fin y => Qle_bool x y
  | _, _ => false
  end.

(** Nearest integer, ties to the even one. *)
Definition round_half_even (q : Q) : Z :=
  let f := Qfloor q in
  match ((q - inject_Z f) ?= (1 # 2))%Q with
  | Lt => f
  | Gt => f + 1
  | Eq => if Z.even f then f else f + 1
  end.

(** [round(x)] for a float: an [int], or an exception when [x] is not
    finite. *)
Definition py_round (x : pyfloat) : result Z :=
  match x with
  | Fin q => Ok (round_half_even q)
  | PInf | NInf =>
      Raise (Exn OverflowError "cannot convert float infinity to integer")
  | NaN => Raise (Exn ValueError "cannot convert float NaN to integer")
  end.

(** An [int] inside an f-string. *)
Definition str_of_int (n : Z) : string := NilZero.string_of_int (Z.to_int n).

(** An ascending sort on the AQI column: what [argsort] is on the NaN-free
    part of the column.  NumPy leaves the order of rows of equal AQI open;
    here they keep their order, and nothing below depends on it. *)
Fixpoint insert_row (r : SummaryRecord) (l : list SummaryRecord)
  : list SummaryRecord :=
  match l with
  | [] => [r]
  | x :: l' =>
      if float_leb (AQI r) (AQI x) then r :: x :: l' else x :: insert_row r l'
  end.

Fixpoint argsort_rows (l : list SummaryRecord) : list SummaryRecord :=
  match l with
  | [] => []
  | r :: l' => insert_row r (argsort_rows l')
  end.

(** [df.sort_values("AQI", ascending=False)]: pandas sets the NaN rows
    aside, sorts the reversed remainder in ascending order, reverses the
    outcome and puts the NaN rows, in their original order, last. *)
Definition sort_values_AQI_desc (df : list SummaryRecord) : list SummaryRecord :=
  let non_nans := filter (fun r => negb (pd_isna (AQI r))) df in
  let nans := filter (fun r => pd_isna (AQI r)) df in
  (rev (argsort_rows (rev non_nans)) ++ nans)%list.

(** The text written above one bar. *)
Definition bar_text (row : SummaryRecord) : result string :=
  let aqi := AQI row in
  let cat := Category row in
  if pd_isna aqi then Ok "n/a"
  else n <- py_round aqi ;; Ok (str_of_int n ++ " (" ++ cat ++ ")").

(** [f > n] for a float [f] and an int [n]; false when [f] is NaN. *)
Definition float_gt_int (f : pyfloat) (n : Z) : bool :=
  match f with
  | Fin q => negb (Qle_bool q (inject_Z n))
  | PInf => true
  | NInf => false
  | NaN => false
  end.

(** [df.sort_values("AQI", ascending=False)] on the frame that
    [pd.DataFrame] builds from the rows: without a row the frame has no
    column, and the call raises [KeyError]. *)
Definition sort_values (df : list SummaryRecord)
  : result (list SummaryRecord) :=
  match df with
  | [] => Raise (Exn KeyError "'AQI'")
  | _ :: _ => Ok (sort_values_AQI_desc df)
  end.

(** [df2["AQI"].max(skipna=True)]: NaN when nothing else is there. *)
Definition max_skipna (column : list pyfloat) : pyfloat :=
  fold_left (fun best x =>
               if isnan x then best
               else if isnan best then x
               else if float_leb best x then x else best)
            column NaN.

Section Chart.
Context `{Builtins} `{Matplotlib}.

(** [max(350, (df2["AQI"].max(skipna=True) if len(df2) else 350) + 25)]. *)
Definition ylim_top (df2 : list SummaryRecord) : pyval :=
  let x :=
    match df2 with
    | [] => PyInt (350 + 25)
    | _ :: _ => PyFloat (float_add (max_skipna (map AQI df2)) (Fin 25))
    end in
  match x with
  | PyFloat f => if float_gt_int f 350 then x else PyInt 350
  | PyInt n => if 350 <? n then x else PyInt 350
  | _ => PyInt 350
  end.

(** The height of the text of a bar: [5], or [aqi + 5]. *)
Definition text_height (aqi : pyfloat) : pyval :=
  if pd_isna aqi then PyInt 5 else PyFloat (float_add aqi (Fin 5)).

(** The annotation loop: the text of each row at its position [i]. *)
Fixpoint annotate (i : nat) (rows : list SummaryRecord) : io unit :=
  match rows with
  | [] => io_ret tt
  | row :: rows' =>
      label <~ lift (bar_text row) ;;
      _ <~ plt (Text i (text_height (AQI row)) label) ;;
      annotate (S i) rows'
  end.

Definition chart_title : string :=
  "Current Air Quality Index (AQI)" ++ nl
  ++ "São Paulo vs Montreal vs Seattle".

Definition chart_footnote : string :=
  "Source: WAQI API (aqicn.org). "
  ++ "Categories follow common US AQI ranges (AirNow).".

(** The frame is copied and the copy sorted, so the rows of the caller stay
    as they are; every line from [plt.figure] to [plt.close] is a call into
    the library, made in the order of the source, and the first exception
    ends the function. *)
Definition plot_aqi_bar (df : list SummaryRecord) (out_png : string)
  : io unit :=
  df2 <~ lift (sort_values df) ;;
  _ <~ plt (Figure 10 (11 # 2)) ;;
  _ <~ plt Gca ;;
  _ <~ plt (Bar (map City df2) (map AQI df2)) ;;
  _ <~ plt (SetTitle chart_title) ;;
  _ <~ plt (SetYlabel "AQI (higher = worse)") ;;
  _ <~ plt (SetYlim (PyInt 0) (ylim_top df2)) ;;
  _ <~ annotate 0 df2 ;;
  _ <~ plt (AxesText (1 # 100) (-18 # 100) chart_footnote) ;;
  _ <~ plt TightLayout ;;
  _ <~ plt (Savefig out_png 180) ;;
  plt Close.

End Chart.

(** ** The driver *)

Section Driver.
Context `{Builtins} `{World} `{Matplotlib}.

(** [payload.get(k)] on a dict. *)
Definition dict_get (d : list (string * pyval)) (k : string) : pyval :=
  match dict_find d k with
  | Some v => v
  | None => PyNone
  end.

(** [status != "ok"]. *)
Definition not_ok (status : pyval) : bool :=
  match status with
  | PyStr s => negb (String.eqb s "ok")
  | _ => true
  end.

Definition fetch_waqi_city (token feed_path : string) (timeout : Z)
  : io pyval :=
  let url := WAQI_BASE ++ "/feed/" ++ feed_path ++ "/?token=" ++ token in
  _ <~ emit (HttpGet url) ;;
  payload <~ lift (http_get url timeout) ;;
  match payload with
  | PyDict d =>
      if not_ok (dict_get d "status")
      then lift (Raise (Exn RuntimeError
                            ("WAQI returned status="
                               ++ py_str (dict_get d "status")
                               ++ ", data=" ++ py_str (dict_get d "data"))))
      else lift (dict_getitem d (KStr "data"))
  | _ =>
      lift (Raise (Exn AttributeError
                       ("'" ++ type_name payload
                            ++ "' object has no attribute 'get'")))
  end.

(** The row appended by the [except] branch of the loop. *)
Definition failure_summary (c : CityQuery) (e : exn) : SummaryRecord :=
  {| City := label c;
     AQI := NaN;
     Category := "Unknown";
     ObservedTime := PyNone;
     Station_Area := PyNone;
     ReportedCity := PyNone;
     Lat := PyNone;
     Lon := PyNone;
     Error := Some (exn_str e) |}.

Definition failure_pollutants (c : CityQuery) : PollutantRecord :=
  {| PCity := label c; components := [] |}.

Definition tables : Type := (list SummaryRecord * list PollutantRecord)%type.

(** One iteration of [for c in cities]. *)
Definition visit (token : string) (acc : tables) (c : CityQuery) : io tables :=
  let '(summaries, pollutants) := acc in
  acc' <~ io_try
            (data <~ fetch_waqi_city token (waqi_feed_path c) 25 ;;
             sp <~ lift (parse_city_data (label c) data) ;;
             io_ret ((summaries ++ [fst sp])%list,
                     (pollutants ++ [snd sp])%list))
            (fun e =>
               io_ret ((summaries ++ [failure_summary c e])%list,
                       (pollutants ++ [failure_pollutants c])%list)) ;;
  _ <~ emit (Sleep (1 # 4)) ;;
  io_ret acc'.

Fixpoint for_cities (token : string) (cs : list CityQuery) (acc : tables)
  : io tables :=
  match cs with
  | [] => io_ret acc
  | c :: cs' => acc' <~ visit token acc c ;; for_cities token cs' acc'
  end.

Definition missing_token : io Z :=
  _ <~ emit (Print token_diagnostic) ;; io_ret 2.

Definition main : io Z :=
  match getenv "WAQI_TOKEN" with
  | None => missing_token
  | Some token =>
      if negb (py_truthy (PyStr token)) then missing_token
      else
        acc <~ for_cities token cities ([], []) ;;
        let '(df, df_poll) := acc in
        _ <~ emit (Print (nl ++ "=== Current AQI Summary ===")) ;;
        _ <~ emit (PrintSummary df) ;;
        _ <~ emit (Print (nl ++ "=== Pollutants (IAQI components, "
                             ++ "if available) ===")) ;;
        _ <~ emit (PrintPollutants df_poll) ;;
        let out_png := "aqi_bar.png" in
        _ <~ plot_aqi_bar df out_png ;;
        _ <~ emit (Print (nl ++ "Saved chart: " ++ out_png)) ;;
        io_ret 0
  end.

End Driver.

(** * Notions used in the statements *)

(** The six labels of the categorizer. *)
Definition categories : list string :=
  ["Good"; "Moderate"; "Unhealthy (Sensitive)"; "Unhealthy";
   "Very Unhealthy"; "Hazardous"].

(** One step of a nested lookup: the value under [k] when [v] is a mapping
    that has [k], nothing otherwise. *)
Definition lookup_key (v : pyval) (k : key) : option pyval :=
  match v, k with
  | PyDict d, KStr s => dict_find d s
  | _, _ => None
  end.

(** Traversal of a sequence of keys through nested mappings: nothing as
    soon as a key is absent or the value reached is not a mapping. *)
Fixpoint traverse (v : pyval) (keys : list key) : option pyval :=
  match keys with
  | [] => Some v
  | k :: keys' =>
      match lookup_key v k with
      | Some v' => traverse v' keys'
      | None => None
      end
  end.

(** The missing-value sentinel in place of nothing. *)
Definition or_missing (o : option pyval) : pyval :=
  match o with
  | Some v => v
  | None => PyNone
  end.

(** The value of a field of a response, missing when the path ends
    early. *)
Definition field (data : pyval) (keys : list key) : pyval :=
  or_missing (traverse data keys).

(** Numeric coercion of a raw value: the float, or nothing when [float]
    raises. *)
Definition coerce `{Builtins} (v : pyval) : option pyfloat :=
  match py_float v with
  | Ok f => Some f
  | Raise _ => None
  end.

(** The first two elements of a sequence of two or more elements. *)
Definition geo_pair (geo : pyval) : option (pyval * pyval) :=
  match geo with
  | PyList (a :: b :: _) => Some (a, b)
  | _ => None
  end.

(** A value counts as empty when it is falsy: [None], [""], zero, an empty
    container. *)
Definition present (v : pyval) : bool := py_truthy v.

(** The summary row of a response, read off the response directly. *)
Definition summary_of `{Builtins} (label : string) (data : pyval)
  : SummaryRecord :=
  let aqi_num :=
    match coerce (field data [KStr "aqi"]) with
    | Some f => f
    | None => NaN
    end in
  let geo := field data [KStr "city"; KStr "geo"] in
  let station := field data [KStr "attributions"; KInt 0; KStr "name"] in
  {| City := label;
     AQI := aqi_num;
     Category := if isnan aqi_num then "Unknown" else aqi_category_us aqi_num;
     ObservedTime := field data [KStr "time"; KStr "s"];
     Station_Area := if present station then station
                     else field data [KStr "city"; KStr "name"];
     ReportedCity := field data [KStr "city"; KStr "name"];
     Lat := match geo_pair geo with Some (a, _) => a | None => PyNone end;
     Lon := match geo_pair geo with Some (_, b) => b | None => PyNone end;
     Error := None |}.

(** The pollutant keys of a row. *)
Definition pollutant_keys : list string :=
  ["pm25"; "pm10"; "o3"; "no2"; "so2"; "co"].

(** The pollutant row of a response. *)
Definition pollutants_of `{Builtins} (label : string) (data : pyval)
  : PollutantRecord :=
  let iaqi0 := field data [KStr "iaqi"] in
  let iaqi := if present iaqi0 then iaqi0 else PyDict [] in
  {| PCity := label;
     components :=
       map (fun k => (k, coerce (field iaqi [KStr k; KStr "v"])))
           pollutant_keys |}.

(** The name of the first attribution, with [attributions] read as the
    sequence the API sends. *)
Definition first_attribution_name (data : pyval) : option pyval :=
  match lookup_key data (KStr "attributions") with
  | Some (PyList (a :: _)) => lookup_key a (KStr "name")
  | _ => None
  end.

(** An AQI the chart can label: a real number or missing. *)
Definition real_or_missing (f : pyfloat) : Prop :=
  match f with
  | Fin _ | NaN => True
  | PInf | NInf => False
  end.

(** Ascending and descending order on the AQI column. *)
Definition aqi_le (a b : SummaryRecord) : Prop :=
  float_leb (AQI a) (AQI b) = true.

Definition aqi_ge (a b : SummaryRecord) : Prop := aqi_le b a.

(** A row whose AQI is present. *)
Definition numeric (r : SummaryRecord) : Prop := isnan (AQI r) = false.

(** The text a bar must carry: the rounded AQI and the category, or n/a. *)
Definition captioned (r : SummaryRecord) (t : string) : Prop :=
  match AQI r with
  | NaN => t = "n/a"
  | Fin q => t = str_of_int (round_half_even q) ++ " (" ++ Category r ++ ")"
  | PInf | NInf => False
  end.

(** An infinite AQI. *)
Definition infinite (f : pyfloat) : Prop := f = PInf \/ f = NInf.

(** The text calls of the annotation loop, given the label of each row. *)
Fixpoint text_calls `{Builtins} (i : nat) (rows : list SummaryRecord)
  (labels : list string) : list plot_call :=
  match rows, labels with
  | r :: rows', t :: labels' =>
      Text i (text_height (AQI r)) t :: text_calls (S i) rows' labels'
  | _, _ => []
  end.

(** The calls of [plot_aqi_bar] before and after the annotation loop. *)
Definition calls_before_texts `{Builtins} (df2 : list SummaryRecord)
  : list plot_call :=
  [Figure 10 (11 # 2); Gca; Bar (map City df2) (map AQI df2);
   SetTitle chart_title; SetYlabel "AQI (higher = worse)";
   SetYlim (PyInt 0) (ylim_top df2)].

Definition calls_after_texts (out_png : string) : list plot_call :=
  [AxesText (1 # 100) (-18 # 100) chart_footnote; TightLayout;
   Savefig out_png 180; Close].

(** All the calls of a chart that is drawn to the end. *)
Definition chart_calls `{Builtins} (df2 : list SummaryRecord)
  (labels : list string) (out_png : string) : list plot_call :=
  (calls_before_texts df2 ++ text_calls 0 df2 labels
     ++ calls_after_texts out_png)%list.

(** Calls made one after the other, up to the first that raises. *)
Fixpoint plt_seq `{Matplotlib} (calls : list plot_call) : io unit :=
  match calls with
  | [] => io_ret tt
  | call :: calls' => _ <~ plt call ;; plt_seq calls'
  end.

Definition is_text_call (call : plot_call) : Prop :=
  match call with
  | Text _ _ _ => True
  | _ => False
  end.

Definition is_savefig_call (call : plot_call) : Prop :=
  match call with
  | Savefig _ _ => True
  | _ => False
  end.

(** The library raised [e] at some call, and it raises at none. *)
Definition library_raised `{Matplotlib} (e : exn) : Prop :=
  exists tr call, plt_call tr call = Raise e.


(** The token is absent or empty. *)
Definition token_unusable (t : option string) : Prop :=
  t = None \/ t = Some "".

(** The address a city is fetched from. *)
Definition feed_url (token : string) (c : CityQuery) : string :=
  WAQI_BASE ++ "/feed/" ++ waqi_feed_path c ++ "/?token=" ++ token.

(** What the fetch of a city comes to: the data of the response, or the
    exception raised on the way. *)
Definition fetch_outcome `{Builtins} `{World} (token : string) (c : CityQuery)
  : result pyval :=
  snd (fetch_waqi_city token (waqi_feed_path c) 25 []).

(** The row of a city whose fetch or parse failed with [e]. *)
Definition degraded_summary (c : CityQuery) (e : exn) (s : SummaryRecord)
  : Prop :=
  City s = label c /\ AQI s = NaN /\ Category s = "Unknown"
  /\ ObservedTime s = PyNone /\ Station_Area s = PyNone
  /\ ReportedCity s = PyNone /\ Lat s = PyNone /\ Lon s = PyNone
  /\ Error s = Some (exn_str e).

(** The two rows a city contributes. *)
Definition rows_of_city `{Builtins} `{World} (token : string) (c : CityQuery)
  (s : SummaryRecord) (p : PollutantRecord) : Prop :=
  match fetch_outcome token c with
  | Ok data => parse_city_data (label c) data = Ok (s, p)
  | Raise e =>
      degraded_summary c e s /\ p = {| PCity := label c; components := [] |}
  end.

(** The pair of rows an iteration appends. *)
Definition appended `{Builtins} `{World} (token : string) (c : CityQuery)
  : SummaryRecord * PollutantRecord :=
  match fetch_outcome token c with
  | Ok data => (summary_of (label c) data, pollutants_of (label c) data)
  | Raise e => (failure_summary c e, failure_pollutants c)
  end.

(** The summary rows of a run with [token]. *)
Definition summaries_of_run `{Builtins} `{World} (token : string)
  : list SummaryRecord :=
  map (fun c => fst (appended token c)) cities.

Definition pollutants_of_run `{Builtins} `{World} (token : string)
  : list PollutantRecord :=
  map (fun c => snd (appended token c)) cities.

(** What is printed between the loop and the chart. *)
Definition tables_printed `{Builtins} `{World} (token : string)
  : list event :=
  [Print (nl ++ "=== Current AQI Summary ===");
   PrintSummary (summaries_of_run token);
   Print (nl ++ "=== Pollutants (IAQI components, "
             ++ "if available) ===");
   PrintPollutants (pollutants_of_run token)].

(** The events of the loop: one request and one pause per city. *)
Definition loop_events (token : string) (cs : list CityQuery) : list event :=
  flat_map (fun c => [HttpGet (feed_url token c); Sleep (1 # 4)]) cs.

Definition is_http_get (ev : event) : Prop :=
  match ev with
  | HttpGet _ => True
  | _ => False
  end.

(** * Sample responses *)

(** A response whose attribution list names a station. *)
Definition with_attribution : pyval :=
  PyDict
    [("aqi", PyInt 42);
     ("attributions",
      PyList [PyDict [("url", PyStr "https://cetesb.sp.gov.br/");
                      ("name", PyStr "CETESB")]]);
     ("city", PyDict [("name", PyStr "Sao Paulo");
                      ("geo", PyList [PyFloat (Fin (-2355 # 100));
                                      PyFloat (Fin (-4663 # 100))])])].

(** A response without attributions. *)
Definition springfield : pyval :=
  PyDict
    [("aqi", PyInt 42);
     ("attributions", PyList []);
     ("city", PyDict [("name", PyStr "Springfield")])].

(** A response whose latitude is [null]. *)
Definition null_latitude : pyval :=
  PyDict
    [("aqi", PyInt 42);
     ("city", PyDict [("name", PyStr "Montreal");
                      ("geo", PyList [PyNone; PyFloat (Fin (-7357 # 100))])])].


(** A summary row with the columns the chart reads. *)
Definition row (city : string) (aqi : pyfloat) (cat : string) : SummaryRecord :=
  {| City := city; AQI := aqi; Category := cat;
     ObservedTime := PyNone; Station_Area := PyNone; ReportedCity := PyNone;
     Lat := PyNone; Lon := PyNone; Error := None |}.


(** The second and third queries of the fixed list. *)
Definition montreal : CityQuery :=
  {| label := "Montreal"; waqi_feed_path := "montreal" |}.

(** A well-formed response body around [springfield]. *)
Definition ok_payload : pyval :=
  PyDict [("status", PyStr "ok"); ("data", springfield)].

Definition env_with_token (t : string) (name : string) : option string :=
  if String.eqb name "WAQI_TOKEN" then Some t else None.

(** A machine on which the token is set to the empty string. *)
Definition empty_token_world : World :=
  {| getenv := env_with_token "";
     http_get := fun _ _ => Ok ok_payload |}.

(** A run in which the request for Montreal fails with [fault] and the other
    two succeed. *)
Definition montreal_fault_world (fault : exn) : World :=
  {| getenv := env_with_token "demo";
     http_get := fun url _ =>
                   if String.eqb url (feed_url "demo" montreal)
                   then Raise fault
                   else Ok ok_payload |}.

(** A refused connection, and the interpreter running out of memory while
    the body is decoded: [str(MemoryError())] is the empty string. *)
Definition connection_refused : exn :=
  Exn (OtherException "ConnectionError") "Connection refused".

Definition out_of_memory : exn := Exn (OtherException "MemoryError") "".

(** A plotting library that takes every call. *)
Definition accepting_library : Matplotlib :=
  {| plt_call := fun _ _ => Ok tt |}.


(** * Further notions *)

(** The position of a label among the six, in order of severity. *)
Fixpoint position (c : string) (l : list string) : nat :=
  match l with
  | [] => 0
  | x :: l' => if String.eqb x c then 0 else S (position c l')
  end.

Definition severity (f : pyfloat) : nat :=
  position (aqi_category_us f) categories.

(** The row of a response that carries nothing. *)
Definition blank_summary (label : string) : SummaryRecord :=
  {| City := label; AQI := NaN; Category := "Unknown";
     ObservedTime := PyNone; Station_Area := PyNone; ReportedCity := PyNone;
     Lat := PyNone; Lon := PyNone; Error := None |}.

Definition blank_pollutants (label : string) : PollutantRecord :=
  {| PCity := label;
     components := map (fun k => (k, @None pyfloat)) pollutant_keys |}.

(** The addresses requested in a sequence of events, in order. *)
Fixpoint requests_of (evs : list event) : list string :=
  match evs with
  | [] => []
  | HttpGet url :: evs' => url :: requests_of evs'
  | _ :: evs' => requests_of evs'
  end.

(** A response body whose data is [null]. *)
Definition null_data_payload : list (string * pyval) :=
  [("status", PyStr "ok"); ("data", PyNone)].

(** [with_attribution] without its attribution list. *)
Definition without_attribution : list (string * pyval) :=
  [("aqi", PyInt 42);
   ("city", PyDict [("name", PyStr "Sao Paulo");
                    ("geo", PyList [PyFloat (Fin (-2355 # 100));
                                    PyFloat (Fin (-4663 # 100))])])].

(** A run in which every city answers with the same body. *)
Definition uniform_world (payload : pyval) : World :=
  {| getenv := env_with_token "demo";
     http_get := fun _ _ => Ok payload |}.

(** The address [fetch_waqi_city] requests. *)
Definition url_of (token feed_path : string) : string :=
  WAQI_BASE ++ "/feed/" ++ feed_path ++ "/?token=" ++ token.

(** The exceptions [fetch_waqi_city] raises itself. *)
Definition no_get_attribute (payload : pyval) : exn :=
  Exn AttributeError
      ("'" ++ type_name payload ++ "' object has no attribute 'get'").

Definition bad_status `{Builtins} (d : list (string * pyval)) : exn :=
  Exn RuntimeError
      ("WAQI returned status=" ++ py_str (dict_get d "status")
         ++ ", data=" ++ py_str (dict_get d "data")).

Definition no_data_key : exn := Exn KeyError "'data'".

(** * Properties *)

(** ** The categorizer *)

Lemma float_le_int_true (q : Q) (n : Z) :
  float_le_int (Fin q) n = true <-> (q <= inject_Z n)%Q.
Proof. apply Qle_bool_iff. Qed.

Lemma float_le_int_false (q : Q) (n : Z) :
  float_le_int (Fin q) n = false <-> (inject_Z n < q)%Q.
Proof.
  unfold float_le_int. split; intro Hq.
  - apply Qnot_le_lt. intro Hle. apply Qle_bool_iff in Hle. congruence.
  - destruct (Qle_bool q (inject_Z n)) eqn:E; [|reflexivity].
    apply Qle_bool_iff in E. exfalso. apply (Qlt_not_le _ _ Hq E).
Qed.

(** Every result of the categorizer is one of its six labels, whatever the
    float. *)
Lemma aqi_category_us_in_categories (f : pyfloat) :
  In (aqi_category_us f) categories.
Proof.
  unfold aqi_category_us, categories.
  repeat match goal with
         | |- context [if ?b then _ else _] => destruct b
         end; simpl; tauto.
Qed.

Lemma aqi_category_us_not_unknown (f : pyfloat) :
  aqi_category_us f <> "Unknown".
Proof.
  pose proof (aqi_category_us_in_categories f) as Hin.
  unfold categories in Hin. simpl in Hin.
  intro Hu. rewrite Hu in Hin.
  repeat (destruct Hin as [Hin | Hin]; [discriminate Hin|]). exact Hin.
Qed.

Ltac split_thresholds :=
  unfold aqi_category_us;
  repeat match goal with
         | |- context [float_le_int (Fin ?q) ?n] =>
             let E := fresh "E" in
             destruct (float_le_int (Fin q) n) eqn:E;
             [apply float_le_int_true in E | apply float_le_int_false in E]
         end;
  unfold inject_Z in *.

(** C2. For every real number [n] the categorizer returns one of the six
    labels, by first match over the ascending non-strict thresholds:
    at most 50 is Good, then at most 100 Moderate, at most 150 Unhealthy
    (Sensitive), at most 200 Unhealthy, at most 300 Very Unhealthy, above
    300 Hazardous; 50 is Good, 50.01 Moderate, 300 Very Unhealthy and 300.01
    Hazardous (both as the decimal and as the binary64 number nearest to
    it). *)
Theorem aqi_category_us_thresholds :
  (forall n : Q,
      In (aqi_category_us (Fin n)) categories
      /\ ((n <= 50)%Q -> aqi_category_us (Fin n) = "Good")
      /\ ((50 < n)%Q -> (n <= 100)%Q -> aqi_category_us (Fin n) = "Moderate")
      /\ ((100 < n)%Q -> (n <= 150)%Q ->
          aqi_category_us (Fin n) = "Unhealthy (Sensitive)")
      /\ ((150 < n)%Q -> (n <= 200)%Q -> aqi_category_us (Fin n) = "Unhealthy")
      /\ ((200 < n)%Q -> (n <= 300)%Q ->
          aqi_category_us (Fin n) = "Very Unhealthy")
      /\ ((300 < n)%Q -> aqi_category_us (Fin n) = "Hazardous"))
  /\ aqi_category_us (Fin 50) = "Good"
  /\ aqi_category_us (Fin (5001 # 100)) = "Moderate"
  /\ aqi_category_us (Fin (7038281792649953 # 140737488355328)) = "Moderate"
  /\ aqi_category_us (Fin 300) = "Very Unhealthy"
  /\ aqi_category_us (Fin (30001 # 100)) = "Hazardous"
  /\ aqi_category_us (Fin (1319457933796311 # 4398046511104)) = "Hazardous".
Proof.
  split; [|repeat split; reflexivity].
  intro n. split; [apply aqi_category_us_in_categories|].
  repeat split; intros; split_thresholds;
    first [reflexivity | exfalso; lra].
Qed.


(** A value strictly between two thresholds. *)
Lemma aqi_category_us_75 :
  (50 < 75)%Q /\ (75 <= 100)%Q /\ aqi_category_us (Fin 75) = "Moderate".
Proof.
  assert (Hlo : (50 < 75)%Q) by reflexivity.
  assert (Hhi : (75 <= 100)%Q) by (intro Hc; discriminate Hc).
  split; [exact Hlo|]. split; [exact Hhi|].
  exact (proj1 (proj2 (proj2 (proj1 aqi_category_us_thresholds 75%Q))) Hlo Hhi).
Defined.

(** ** The nested lookup *)

Lemma dict_getitem_of_contains (d : list (string * pyval)) (k : key) :
  dict_contains d k = true ->
  exists v, dict_getitem d k = Ok v /\ lookup_key (PyDict d) k = Some v.
Proof.
  destruct k as [s | i]; simpl; [|discriminate].
  destruct (dict_find d s) as [v |]; [|discriminate].
  intros _. exists v. split; reflexivity.
Qed.

Lemma lookup_key_of_not_contains (d : list (string * pyval)) (k : key) :
  dict_contains d k = false -> lookup_key (PyDict d) k = None.
Proof.
  destruct k as [s | i]; simpl; [|reflexivity].
  destruct (dict_find d s); [discriminate | reflexivity].
Qed.

Lemma lookup_key_int (v : pyval) (i : Z) : lookup_key v (KInt i) = None.
Proof. destruct v; reflexivity. Qed.

(** [safe_get] computes the traversal and never raises: the subscript
    [cur[k]] is only reached after [k in cur] has succeeded. *)
Lemma safe_get_traverse (keys : list key) :
  forall cur : pyval, safe_get cur keys = Ok (field cur keys).
Proof.
  unfold field.
  induction keys as [| k keys IH]; intro cur; [reflexivity|].
  destruct cur; try reflexivity.
  cbn [safe_get traverse].
  destruct (dict_contains entries k) eqn:Hin; cbn [negb].
  - destruct (dict_getitem_of_contains _ _ Hin) as (v & Hget & Hlk).
    rewrite Hget, Hlk. cbn [bind]. apply IH.
  - rewrite (lookup_key_of_not_contains _ _ Hin). reflexivity.
Qed.

Lemma traverse_app (keys keys' : list key) :
  forall v : pyval,
    traverse v (keys ++ keys') =
    match traverse v keys with
    | Some v' => traverse v' keys'
    | None => None
    end.
Proof.
  induction keys as [| k keys IH]; intro v; [reflexivity|].
  cbn [app traverse]. destruct (lookup_key v k); [apply IH | reflexivity].
Qed.

(** No JSON value has an entry under the integer key [0] of a mapping, so
    the path [attributions, 0, name] leads nowhere. *)
Lemma traverse_attributions (data : pyval) :
  traverse data [KStr "attributions"; KInt 0; KStr "name"] = None.
Proof.
  cbn [traverse]. destruct (lookup_key data (KStr "attributions")) as [v |];
    [rewrite lookup_key_int|]; reflexivity.
Qed.

Lemma field_attributions (data : pyval) :
  field data [KStr "attributions"; KInt 0; KStr "name"] = PyNone.
Proof. unfold field. rewrite traverse_attributions. reflexivity. Qed.

Lemma isnan_true_iff (f : pyfloat) : isnan f = true <-> f = NaN.
Proof. destruct f; cbn; split; congruence. Qed.

(** ** The parser *)

Lemma list_getitem_nth (l : list pyval) (i : nat) (v : pyval) :
  nth_error l i = Some v -> list_getitem l (Z.of_nat i) = Ok v.
Proof.
  intro Hnth. unfold list_getitem.
  assert (Hlt : (i < List.length l)%nat)
    by (apply nth_error_Some; congruence).
  assert (Hneg : (Z.of_nat i <? 0) = false) by (apply Z.ltb_ge; lia).
  rewrite Hneg. cbv zeta. rewrite Hneg.
  replace (Z.of_nat (List.length l) <=? Z.of_nat i) with false
    by (symmetry; apply Z.leb_gt; lia).
  cbn [orb]. rewrite Nat2Z.id, Hnth. reflexivity.
Qed.

(** The two guarded subscripts of the parser never raise: both give an
    element of the pair, or both give [None]. *)
Lemma geo_item_pair (geo : pyval) :
  geo_item geo 0
  = Ok (match geo_pair geo with Some (a, _) => a | None => PyNone end)
  /\ geo_item geo 1
     = Ok (match geo_pair geo with Some (_, b) => b | None => PyNone end).
Proof.
  destruct geo as [| | | | | l |]; try (split; reflexivity).
  destruct l as [| a [| b l]]; try (split; reflexivity).
  unfold geo_item, geo_pair.
  replace (2 <=? Z.of_nat (List.length (a :: b :: l))) with true
    by (symmetry; apply Z.leb_le; cbn [List.length]; lia).
  split.
  - apply (list_getitem_nth (a :: b :: l) 0 a). reflexivity.
  - apply (list_getitem_nth (a :: b :: l) 1 b). reflexivity.
Qed.

Section ParserFacts.
Context `{Builtins}.

Lemma iaqi_val_coerce (iaqi : pyval) (k : string) :
  iaqi_val iaqi k = Ok (coerce (field iaqi [KStr k; KStr "v"])).
Proof.
  unfold iaqi_val, coerce. rewrite safe_get_traverse. cbn [bind].
  destruct (py_float _); reflexivity.
Qed.

(** The parser returns on every input, with exactly these two rows. *)
Lemma parse_city_data_rows (label : string) (data : pyval) :
  parse_city_data label data
  = Ok (summary_of label data, pollutants_of label data).
Proof.
  unfold parse_city_data.
  rewrite !safe_get_traverse. cbn [bind].
  destruct (geo_item_pair (field data [KStr "city"; KStr "geo"]))
    as [Hlat Hlon].
  rewrite Hlat, Hlon. cbn [bind].
  rewrite !iaqi_val_coerce. cbn [bind].
  unfold summary_of, pollutants_of, pollutant_keys, present, coerce,
    try_except, pd_notna.
  cbn [map].
  destruct (py_truthy (field data [KStr "attributions"; KInt 0; KStr "name"]));
    cbn [negb]; rewrite ?safe_get_traverse; cbn [bind];
    destruct (py_float (field data [KStr "aqi"])) as [f | e];
    try destruct (isnan f); reflexivity.
Qed.

End ParserFacts.

(** ** Properties of the parser *)

Section ParserProperties.
Context `{Builtins}.

(** C1. The parser looks [attributions[0].name] up with [safe_get], which
    stops at the attribution list because a list is not a mapping: on
    every response Station/Area is the value of [city.name], also when the
    first attribution has a non-empty name, as in [with_attribution], where
    the station CETESB is passed over for the city name.  With no
    attribution and [city.name] Springfield, Station/Area is Springfield. *)
Theorem station_area_skips_attributions :
  (forall (label : string) (data : pyval),
      exists s p,
        parse_city_data label data = Ok (s, p)
        /\ Station_Area s = field data [KStr "city"; KStr "name"])
  /\ first_attribution_name with_attribution = Some (PyStr "CETESB")
  /\ (exists s p,
         parse_city_data "Sao Paulo" with_attribution = Ok (s, p)
         /\ Station_Area s = PyStr "Sao Paulo")
  /\ (exists s p,
         parse_city_data "Springfield" springfield = Ok (s, p)
         /\ Station_Area s = PyStr "Springfield").
Proof.
  split; [|split; [reflexivity|split]].
  - intros label data. eexists. eexists.
    split; [apply parse_city_data_rows|].
    unfold summary_of. cbn [Station_Area].
    rewrite field_attributions. reflexivity.
  - eexists. eexists. split; [apply parse_city_data_rows|reflexivity].
  - eexists. eexists. split; [apply parse_city_data_rows|reflexivity].
Qed.



Lemma coerce_of_none_field (v : pyval) (keys : list key) :
  traverse v keys = None -> coerce (field v keys) = None.
Proof. unfold field. intros ->. reflexivity. Qed.

(** C5. The nested lookup returns on every input and every sequence of
    keys: it gives the traversed value, and the missing value as soon as
    the value reached is not a mapping or lacks the next key.  The parser
    returns its two rows on every input; a field whose lookup fails is
    missing in the row, an AQI that does not coerce is not-a-number, and
    a pollutant whose lookup or coercion fails is missing. *)
Theorem safe_get_and_parser_never_raise :
  (forall (d : pyval) (keys : list key),
      safe_get d keys = Ok (or_missing (traverse d keys)))
  /\ (forall (d v : pyval) (keys rest : list key) (k : key),
         traverse d keys = Some v ->
         (forall m, v <> PyDict m)
         \/ (exists m, v = PyDict m /\ dict_contains m k = false) ->
         safe_get d (keys ++ k :: rest) = Ok PyNone)
  /\ (forall (label : string) (data : pyval),
         exists s p,
           parse_city_data label data = Ok (s, p)
           /\ City s = label /\ PCity p = label /\ Error s = None
           /\ (coerce (field data [KStr "aqi"]) = None -> AQI s = NaN)
           /\ ObservedTime s = field data [KStr "time"; KStr "s"]
           /\ ReportedCity s = field data [KStr "city"; KStr "name"]
           /\ (traverse data [KStr "time"; KStr "s"] = None ->
               ObservedTime s = PyNone)
           /\ (traverse data [KStr "city"; KStr "name"] = None ->
               ReportedCity s = PyNone /\ Station_Area s = PyNone)
           /\ (traverse data [KStr "city"; KStr "geo"] = None ->
               Lat s = PyNone /\ Lon s = PyNone)
           /\ map fst (components p) = pollutant_keys
           /\ (forall k : string,
                  In k pollutant_keys ->
                  traverse data [KStr "iaqi"; KStr k; KStr "v"] = None ->
                  In (k, None) (components p))).
Proof.
  split; [intros d keys; apply safe_get_traverse|].
  split.
  - intros d v keys rest k Hv Hstop.
    rewrite safe_get_traverse. unfold field.
    rewrite traverse_app, Hv. cbn [traverse].
    replace (lookup_key v k) with (@None pyval); [reflexivity|].
    destruct Hstop as [Hnm | (m & -> & Hk)].
    + destruct v; try (destruct k; reflexivity).
      exfalso. exact (Hnm _ eq_refl).
    + symmetry. apply lookup_key_of_not_contains, Hk.
  - intros label data.
    exists (summary_of label data), (pollutants_of label data).
    split; [apply parse_city_data_rows|].
    unfold summary_of, pollutants_of.
    cbn [City PCity Error AQI ObservedTime ReportedCity Station_Area Lat Lon
         components].
    repeat apply conj; try reflexivity.
    + intros ->. reflexivity.
    + unfold field. intros ->. reflexivity.
    + rewrite field_attributions. unfold field. intros ->.
      split; reflexivity.
    + unfold field. intros ->. split; reflexivity.
    + intros k Hk Hnone.
      apply in_map_iff. exists k. split; [|exact Hk].
      f_equal. apply coerce_of_none_field.
      unfold field. cbn [traverse] in Hnone |- *.
      destruct (lookup_key data (KStr "iaqi")) as [iaqi |]; cbn [or_missing].
      * unfold present. destruct (py_truthy iaqi) eqn:Ht; [exact Hnone|].
        reflexivity.
      * reflexivity.
Qed.

Lemma geo_pair_none (geo : pyval) :
  geo_pair geo = None <->
  (forall l : list pyval, geo = PyList l -> (List.length l < 2)%nat).
Proof.
  split.
  - intros Hn l ->. destruct l as [| a [| b l]]; cbn in *;
      [lia | lia | discriminate].
  - intro Hl. destruct geo as [| | | | | l |]; try reflexivity.
    destruct l as [| a [| b l]]; try reflexivity.
    specialize (Hl _ eq_refl). cbn in Hl. lia.
Qed.

(** C6, as the code has it.  On every response Lat and Lon are the first
    and the second element of the sequence of two or more elements at
    [city.geo], or both missing when [city.geo] is absent, is not a
    sequence or has fewer than two elements; so they are both populated
    or both missing whenever neither of the two elements is itself null. *)
Theorem lat_lon_from_geo_pair (label : string) (data : pyval) :
  exists s p,
    parse_city_data label data = Ok (s, p)
    /\ match geo_pair (field data [KStr "city"; KStr "geo"]) with
       | Some (a, b) =>
           Lat s = a /\ Lon s = b
           /\ (a <> PyNone -> b <> PyNone ->
               Lat s <> PyNone /\ Lon s <> PyNone)
       | None => Lat s = PyNone /\ Lon s = PyNone
       end
    /\ (geo_pair (field data [KStr "city"; KStr "geo"]) = None <->
        (forall l : list pyval,
            field data [KStr "city"; KStr "geo"] = PyList l ->
            (List.length l < 2)%nat))
    /\ (traverse data [KStr "city"; KStr "geo"] = None ->
        Lat s = PyNone /\ Lon s = PyNone).
Proof.
  exists (summary_of label data), (pollutants_of label data).
  split; [apply parse_city_data_rows|].
  unfold summary_of. cbn [Lat Lon].
  split; [|split; [apply geo_pair_none|]].
  - destruct (geo_pair _) as [[a b] |]; repeat split; assumption.
  - unfold field. intros ->. split; reflexivity.
Qed.

(** C9. Applied directly to not-a-number, the categorizer finds every
    threshold comparison false and returns Hazardous; it returns Unknown
    on no float at all.  Unknown comes from the guard of the parser alone,
    which replaces the call when AQI is not-a-number. *)
Theorem aqi_category_us_nan :
  (forall n : Z, float_le_int NaN n = false)
  /\ aqi_category_us NaN = "Hazardous"
  /\ (forall f : pyfloat, aqi_category_us f <> "Unknown")
  /\ (forall (label : string) (data : pyval),
         exists s p,
           parse_city_data label data = Ok (s, p)
           /\ Category s = (if pd_notna (AQI s)
                            then aqi_category_us (AQI s) else "Unknown")
           /\ (AQI s = NaN -> Category s = "Unknown")).
Proof.
  split; [reflexivity|]. split; [reflexivity|].
  split; [exact aqi_category_us_not_unknown|].
  intros label data.
  exists (summary_of label data), (pollutants_of label data).
  split; [apply parse_city_data_rows|].
  unfold summary_of, pd_notna. cbn [AQI Category].
  split.
  - destruct (isnan _); reflexivity.
  - intros ->. reflexivity.
Qed.

End ParserProperties.

(** C6, as stated, fails: with a null first element of [city.geo], Lat is
    missing while Lon is populated, whatever the built-ins do. *)
Lemma lat_lon_partial_on_null_element :
  exists s p,
    (forall B : Builtins, @parse_city_data B "Montreal" null_latitude = Ok (s, p))
    /\ Lat s = PyNone
    /\ Lon s = PyFloat (Fin (-7357 # 100))
    /\ Lon s <> PyNone.
Proof.
  eexists. eexists.
  split; [intro B; rewrite parse_city_data_rows; cbv; reflexivity|].
  cbn. repeat split. discriminate.
Qed.


(** A lookup that meets a number where a mapping is needed gives the
    missing value, and the parser returns on a response that is no mapping
    at all. *)
Lemma safe_get_through_a_number :
  traverse springfield [KStr "aqi"] = Some (PyInt 42)
  /\ forall B : Builtins,
      safe_get springfield [KStr "aqi"; KStr "v"] = Ok PyNone
      /\ exists s p,
          @parse_city_data B "Montreal" (PyStr "Unknown station") = Ok (s, p)
          /\ ObservedTime s = PyNone /\ ReportedCity s = PyNone
          /\ Lat s = PyNone /\ Lon s = PyNone.
Proof.
  split; [reflexivity|]. intro B. split.
  - refine (proj1 (proj2 (@safe_get_and_parser_never_raise B))
              springfield (PyInt 42) [KStr "aqi"] [] (KStr "v") eq_refl _).
    left. intros m Hm. discriminate Hm.
  - destruct (proj2 (proj2 (@safe_get_and_parser_never_raise B))
                "Montreal" (PyStr "Unknown station"))
      as (s & p & Hp & _ & _ & _ & _ & Ht & Hc & _ & _ & Hg & _).
    exists s, p. split; [exact Hp|].
    rewrite Ht, Hc. destruct (Hg eq_refl) as [-> ->].
    repeat split.
Defined.

(** A response with a latitude and a longitude has both in its row. *)
Lemma lat_lon_of_with_attribution :
  geo_pair (field with_attribution [KStr "city"; KStr "geo"])
  = Some (PyFloat (Fin (-2355 # 100)), PyFloat (Fin (-4663 # 100)))
  /\ forall B : Builtins,
      exists s p,
        @parse_city_data B "Sao Paulo" with_attribution = Ok (s, p)
        /\ Lat s = PyFloat (Fin (-2355 # 100))
        /\ Lon s = PyFloat (Fin (-4663 # 100)).
Proof.
  split; [reflexivity|]. intro B.
  destruct (@lat_lon_from_geo_pair B "Sao Paulo" with_attribution)
    as (s & p & Hp & Hgeo & _).
  exists s, p. split; [exact Hp|].
  cbn in Hgeo. destruct Hgeo as (Hlat & Hlon & _). split; assumption.
Defined.

(** ** The chart *)

Lemma float_leb_total (a b : pyfloat) :
  isnan a = false -> isnan b = false ->
  float_leb a b = false -> float_leb b a = true.
Proof.
  destruct a as [x | | |], b as [y | | |]; cbn; try congruence.
  intros _ _ Hxy. apply Qle_bool_iff, Qlt_le_weak, Qnot_le_lt.
  intro Hle. apply Qle_bool_iff in Hle. congruence.
Qed.

Lemma float_leb_trans (a b c : pyfloat) :
  float_leb a b = true -> float_leb b c = true -> float_leb a c = true.
Proof.
  destruct a as [x | | |], b as [y | | |], c as [z | | |]; cbn;
    try congruence.
  rewrite !Qle_bool_iff. apply Qle_trans.
Qed.

Lemma insert_row_perm (r : SummaryRecord) (l : list SummaryRecord) :
  Permutation (r :: l) (insert_row r l).
Proof.
  induction l as [| x l IH]; cbn; [reflexivity|].
  destruct (float_leb (AQI r) (AQI x)); [reflexivity|].
  rewrite perm_swap. apply perm_skip, IH.
Qed.

Lemma argsort_rows_perm (l : list SummaryRecord) :
  Permutation l (argsort_rows l).
Proof.
  induction l as [| r l IH]; cbn; [reflexivity|].
  rewrite <- insert_row_perm. apply perm_skip, IH.
Qed.

Lemma insert_row_sorted (r : SummaryRecord) (l : list SummaryRecord) :
  numeric r -> Forall numeric l ->
  StronglySorted aqi_le l -> StronglySorted aqi_le (insert_row r l).
Proof.
  intros Hr Hl Hs.
  induction Hs as [| x l Hs IH Hx]; cbn.
  - constructor; constructor.
  - inversion Hl as [| ? ? Hnx Hnl]; subst.
    destruct (float_leb (AQI r) (AQI x)) eqn:E.
    + constructor; [constructor; assumption|].
      constructor; [exact E|].
      apply (Forall_impl (aqi_le r) (P := aqi_le x)); [|exact Hx].
      intros y Hy. exact (float_leb_trans _ _ _ E Hy).
    + constructor; [apply IH, Hnl|].
      apply (Permutation_Forall (insert_row_perm r l)).
      constructor; [|exact Hx].
      exact (float_leb_total _ _ Hr Hnx E).
Qed.

Lemma argsort_rows_sorted (l : list SummaryRecord) :
  Forall numeric l -> StronglySorted aqi_le (argsort_rows l).
Proof.
  induction 1 as [| r l Hr Hl IH]; cbn; [constructor|].
  apply insert_row_sorted; [exact Hr | | exact IH].
  apply (Permutation_Forall (argsort_rows_perm l)), Hl.
Qed.

Lemma StronglySorted_snoc {A : Type} (R : A -> A -> Prop) (l : list A) (x : A) :
  StronglySorted R l -> Forall (fun y => R y x) l ->
  StronglySorted R (l ++ [x])%list.
Proof.
  induction 1 as [| y l Hs IH Hy]; intro Hx; cbn.
  - constructor; constructor.
  - inversion Hx; subst. constructor; [apply IH; assumption|].
    apply Forall_app. split; [exact Hy|]. constructor; [assumption|constructor].
Qed.

(** Reversing an ascending list gives a descending one. *)
Lemma StronglySorted_rev {A : Type} (R : A -> A -> Prop) (l : list A) :
  StronglySorted R l -> StronglySorted (fun a b => R b a) (rev l).
Proof.
  induction 1 as [| x l Hs IH Hx]; cbn; [constructor|].
  apply StronglySorted_snoc; [exact IH|].
  apply Forall_rev, Hx.
Qed.

Lemma filter_split {A : Type} (f : A -> bool) (l : list A) :
  Permutation l (filter (fun x => negb (f x)) l ++ filter f l)%list.
Proof.
  induction l as [| x l IH]; cbn; [reflexivity|].
  destruct (f x); cbn.
  - apply Permutation_cons_app, IH.
  - apply perm_skip, IH.
Qed.

(** The sorted frame: the rows with a present AQI in descending order, then
    the rows whose AQI is missing. *)
Lemma sort_values_AQI_desc_shape (df : list SummaryRecord) :
  exists present_rows missing_rows,
    sort_values_AQI_desc df = (present_rows ++ missing_rows)%list
    /\ Permutation df (present_rows ++ missing_rows)%list
    /\ Forall (fun r => AQI r <> NaN) present_rows
    /\ Forall (fun r => AQI r = NaN) missing_rows
    /\ StronglySorted aqi_ge present_rows.
Proof.
  unfold sort_values_AQI_desc, pd_isna.
  set (keep := filter (fun r => negb (isnan (AQI r))) df).
  set (nans := filter (fun r => isnan (AQI r)) df).
  assert (Hkeep : Forall numeric keep).
  { apply Forall_forall. intros r Hr. apply filter_In in Hr.
    destruct Hr as [_ Hr]. unfold numeric.
    destruct (isnan (AQI r)); [discriminate | reflexivity]. }
  exists (rev (argsort_rows (rev keep))), nans.
  split; [reflexivity|]. split; [|split; [|split]].
  - rewrite <- Permutation_rev, <- argsort_rows_perm, <- Permutation_rev.
    apply (filter_split (fun r => isnan (AQI r))).
  - apply Forall_rev.
    apply (Permutation_Forall (argsort_rows_perm _)), Forall_rev.
    apply (Forall_impl _ (P := numeric)); [|exact Hkeep].
    intros r Hr Hn. unfold numeric in Hr. rewrite Hn in Hr. discriminate Hr.
  - apply Forall_forall. intros r Hr. apply filter_In in Hr.
    destruct Hr as [_ Hr]. apply isnan_true_iff, Hr.
  - apply (StronglySorted_rev aqi_le), argsort_rows_sorted.
    apply Forall_rev, Hkeep.
Qed.

Lemma bar_text_captioned (r : SummaryRecord) :
  real_or_missing (AQI r) -> exists t, bar_text r = Ok t /\ captioned r t.
Proof.
  unfold bar_text, captioned, pd_isna.
  destruct (AQI r); cbn; intro Hr; try contradiction;
    eexists; split; reflexivity.
Qed.

Lemma bar_text_ok (r : SummaryRecord) (t : string) :
  bar_text r = Ok t -> captioned r t.
Proof.
  unfold bar_text, captioned, pd_isna.
  destruct (AQI r); cbn; intro Ht; inversion Ht; reflexivity.
Qed.

Lemma bar_text_raise (r : SummaryRecord) (e : exn) :
  bar_text r = Raise e -> infinite (AQI r).
Proof.
  unfold bar_text, pd_isna, infinite.
  destruct (AQI r); cbn; intro Ht; try discriminate Ht; tauto.
Qed.

Lemma captioned_not_infinite (rows : list SummaryRecord)
  (labels : list string) :
  Forall2 captioned rows labels ->
  forall r, In r rows -> ~ infinite (AQI r).
Proof.
  induction 1 as [| x t rows labels Hx Hrest IH]; intros r Hin;
    [contradiction|].
  destruct Hin as [<- | Hin]; [|exact (IH r Hin)].
  unfold captioned in Hx. intros [Hi | Hi]; rewrite Hi in Hx; exact Hx.
Qed.


Lemma io_bind_ok {A B : Type} (m : io A) (k : A -> io B)
  (tr tr' : list event) (a : A) :
  m tr = (tr', Ok a) -> io_bind m k tr = k a tr'.
Proof. unfold io_bind. intros ->. reflexivity. Qed.

Lemma io_bind_raise {A B : Type} (m : io A) (k : A -> io B)
  (tr tr' : list event) (e : exn) :
  m tr = (tr', Raise e) -> io_bind m k tr = (tr', Raise e).
Proof. unfold io_bind. intros ->. reflexivity. Qed.

Lemma snoc_calls (tr : list event) (call : plot_call)
  (calls : list plot_call) :
  ((tr ++ [Plt call]) ++ map Plt calls)%list
  = (tr ++ map Plt (call :: calls))%list.
Proof. rewrite <- app_assoc. reflexivity. Qed.

Lemma app_calls (tr : list event) (calls calls' : list plot_call) :
  ((tr ++ map Plt calls) ++ map Plt calls')%list
  = (tr ++ map Plt (calls ++ calls'))%list.
Proof. rewrite map_app, app_assoc. reflexivity. Qed.

Section ChartFacts.
Context `{Builtins} `{Matplotlib}.

(** A sequence of calls goes through, or stops at the first call that the
    library refuses. *)
Lemma plt_seq_run (calls : list plot_call) :
  forall tr : list event,
    plt_seq calls tr = ((tr ++ map Plt calls)%list, Ok tt)
    \/ exists made e,
        plt_seq calls tr = ((tr ++ map Plt made)%list, Raise e)
        /\ incl made calls /\ library_raised e.
Proof.
  induction calls as [| call calls IH]; intro tr.
  - left. cbn. unfold io_ret. rewrite app_nil_r. reflexivity.
  - cbn [plt_seq]. unfold io_bind, plt.
    destruct (plt_call tr call) as [[] | e] eqn:Hcall.
    + destruct (IH (tr ++ [Plt call])%list)
        as [-> | (made & e & -> & Hincl & Hlib)].
      * left. rewrite snoc_calls. reflexivity.
      * right. exists (call :: made), e. rewrite snoc_calls.
        split; [reflexivity|]. split; [|exact Hlib].
        intros x [<- | Hx]; [left; reflexivity | right; exact (Hincl x Hx)].
    + right. exists [call], e. split; [reflexivity|].
      split; [|exists tr, call; exact Hcall].
      intros x [<- | []]. left. reflexivity.
Qed.

(** The annotation loop writes the text of every row, or stops: at a row
    whose AQI is infinite, where [round] raises, or at a text that the
    library refuses. *)
Lemma annotate_run (rows : list SummaryRecord) :
  forall (i : nat) (tr : list event),
    (exists labels,
        Forall2 captioned rows labels
        /\ annotate i rows tr
           = ((tr ++ map Plt (text_calls i rows labels))%list, Ok tt))
    \/ exists made e,
        annotate i rows tr = ((tr ++ map Plt made)%list, Raise e)
        /\ Forall is_text_call made
        /\ ((exists r, In r rows /\ infinite (AQI r)) \/ library_raised e).
Proof.
  induction rows as [| row rows IH]; intros i tr.
  - left. exists []. split; [constructor|].
    cbn. unfold io_ret. rewrite app_nil_r. reflexivity.
  - cbn [annotate]. unfold io_bind, lift, plt.
    destruct (bar_text row) as [t | e] eqn:Ht.
    + destruct (plt_call tr (Text i (text_height (AQI row)) t))
        as [[] | e] eqn:Hcall.
      * destruct (IH (S i)
                    (tr ++ [Plt (Text i (text_height (AQI row)) t)])%list)
          as [(labels & Hcap & ->) | (made & e & -> & Htext & Hwhy)].
        -- left. exists (t :: labels).
           split; [constructor; [exact (bar_text_ok _ _ Ht) | exact Hcap]|].
           rewrite snoc_calls. reflexivity.
        -- right. exists (Text i (text_height (AQI row)) t :: made), e.
           rewrite snoc_calls. split; [reflexivity|].
           split; [constructor; [exact I | exact Htext]|].
           destruct Hwhy as [(r & Hin & Hinf) | Hlib];
             [left | right; exact Hlib].
           exists r. split; [right; exact Hin | exact Hinf].
      * right. exists [Text i (text_height (AQI row)) t], e.
        split; [reflexivity|]. split; [repeat constructor|].
        right. exists tr, (Text i (text_height (AQI row)) t). exact Hcall.
    + right. exists [], e. rewrite app_nil_r. split; [reflexivity|].
      split; [constructor|]. left. exists row.
      split; [left; reflexivity | exact (bar_text_raise _ _ Ht)].
Qed.

(** [plot_aqi_bar] is the sort, the calls before the texts, the annotation
    loop and the calls after it. *)
Lemma plot_aqi_bar_steps (df : list SummaryRecord) (out_png : string)
  (tr : list event) :
  plot_aqi_bar df out_png tr
  = match sort_values df with
    | Ok df2 =>
        (_ <~ plt_seq (calls_before_texts df2) ;;
         _ <~ annotate 0 df2 ;;
         plt_seq (calls_after_texts out_png)) tr
    | Raise e => (tr, Raise e)
    end.
Proof.
  unfold plot_aqi_bar, calls_before_texts, calls_after_texts.
  cbn [plt_seq]. unfold io_bind, lift, io_ret, plt.
  destruct (sort_values df) as [df2 | e]; [|reflexivity].
  repeat match goal with
         | |- context [plt_call ?t ?c] =>
             destruct (plt_call t c) as [[] | ?]; try reflexivity
         end.
  destruct (annotate 0 df2 _) as [tr' [[] | e]]; [|reflexivity].
  repeat match goal with
         | |- context [plt_call ?t ?c] =>
             destruct (plt_call t c) as [[] | ?]; try reflexivity
         end.
Qed.

Lemma no_savefig_before (df2 : list SummaryRecord) :
  Forall (fun call => ~ is_savefig_call call) (calls_before_texts df2).
Proof. unfold calls_before_texts. repeat constructor; intros []. Qed.

Lemma text_is_no_savefig (calls : list plot_call) :
  Forall is_text_call calls ->
  Forall (fun call => ~ is_savefig_call call) calls.
Proof.
  apply Forall_impl. intros call Ht Hs. destruct call; contradiction.
Qed.

(** The chart is drawn to the end, with the bars of the sorted frame and
    the caption of every row, or the call raises: on a frame without rows,
    on an infinite AQI, or because the library refuses a call. *)
Lemma plot_aqi_bar_run (df : list SummaryRecord) (out_png : string)
  (tr : list event) :
  (exists present_rows missing_rows labels,
      df <> []
      /\ Permutation df (present_rows ++ missing_rows)%list
      /\ Forall (fun r => AQI r <> NaN) present_rows
      /\ Forall (fun r => AQI r = NaN) missing_rows
      /\ StronglySorted aqi_ge present_rows
      /\ Forall2 captioned (present_rows ++ missing_rows)%list labels
      /\ plot_aqi_bar df out_png tr
         = ((tr ++ map Plt (chart_calls (present_rows ++ missing_rows)%list
                                        labels out_png))%list,
            Ok tt))
  \/ exists made e,
      plot_aqi_bar df out_png tr = ((tr ++ map Plt made)%list, Raise e)
      /\ (df = []
          \/ (exists r, In r df /\ infinite (AQI r))
          \/ library_raised e).
Proof.
  rewrite plot_aqi_bar_steps.
  destruct df as [| x df].
  { right. exists [], (Exn KeyError "'AQI'"). rewrite app_nil_r.
    split; [reflexivity | left; reflexivity]. }
  cbn [sort_values].
  destruct (sort_values_AQI_desc_shape (x :: df))
    as (ps & ms & Hsort & Hperm & Hps & Hms & Hord).
  rewrite Hsort.
  destruct (plt_seq_run (calls_before_texts (ps ++ ms)%list) tr)
    as [Hb | (made & e & Hb & _ & Hlib)].
  2: { right. exists made, e. rewrite (io_bind_raise _ _ _ _ _ Hb).
       split; [reflexivity | right; right; exact Hlib]. }
  rewrite (io_bind_ok _ _ _ _ _ Hb).
  destruct (annotate_run (ps ++ ms)%list 0
              (tr ++ map Plt (calls_before_texts (ps ++ ms)%list))%list)
    as [(labels & Hcap & Ha) | (made & e & Ha & _ & Hwhy)].
  2: { right. exists (calls_before_texts (ps ++ ms)%list ++ made)%list, e.
       rewrite (io_bind_raise _ _ _ _ _ Ha), app_calls.
       split; [reflexivity|]. right.
       destruct Hwhy as [(r & Hin & Hinf) | Hl]; [left | right; exact Hl].
       exists r. split; [|exact Hinf].
       apply (Permutation_in _ (Permutation_sym Hperm)), Hin. }
  rewrite (io_bind_ok _ _ _ _ _ Ha).
  destruct (plt_seq_run (calls_after_texts out_png)
              ((tr ++ map Plt (calls_before_texts (ps ++ ms)%list))
                 ++ map Plt (text_calls 0 (ps ++ ms)%list labels))%list)
    as [Hc | (made & e & Hc & _ & Hlib)].
  - left. exists ps, ms, labels.
    split; [discriminate|]. repeat (split; [assumption|]).
    rewrite Hc. unfold chart_calls. rewrite !app_calls, <- ?app_assoc.
    reflexivity.
  - right.
    exists (calls_before_texts (ps ++ ms)%list
              ++ text_calls 0 (ps ++ ms)%list labels ++ made)%list, e.
    rewrite Hc, !app_calls, <- ?app_assoc.
    split; [reflexivity | right; right; exact Hlib].
Qed.

(** Without a row, or with an infinite AQI, the call raises whatever the
    library does, and before anything is saved. *)
Lemma plot_aqi_bar_stops (df : list SummaryRecord) (out_png : string)
  (tr : list event) :
  df = [] \/ (exists r, In r df /\ infinite (AQI r)) ->
  exists made e,
    plot_aqi_bar df out_png tr = ((tr ++ map Plt made)%list, Raise e)
    /\ Forall (fun call => ~ is_savefig_call call) made.
Proof.
  intro Hwhy. rewrite plot_aqi_bar_steps.
  destruct df as [| x df].
  { exists [], (Exn KeyError "'AQI'"). rewrite app_nil_r.
    split; [reflexivity | constructor]. }
  destruct Hwhy as [Hnil | (r & Hin & Hinf)]; [discriminate Hnil|].
  cbn [sort_values].
  destruct (sort_values_AQI_desc_shape (x :: df))
    as (ps & ms & Hsort & Hperm & _).
  rewrite Hsort.
  assert (Hin' : In r (ps ++ ms)%list)
    by (apply (Permutation_in _ Hperm), Hin).
  destruct (plt_seq_run (calls_before_texts (ps ++ ms)%list) tr)
    as [Hb | (made & e & Hb & Hincl & _)].
  2: { exists made, e. rewrite (io_bind_raise _ _ _ _ _ Hb).
       split; [reflexivity|].
       apply (incl_Forall Hincl), no_savefig_before. }
  rewrite (io_bind_ok _ _ _ _ _ Hb).
  destruct (annotate_run (ps ++ ms)%list 0
              (tr ++ map Plt (calls_before_texts (ps ++ ms)%list))%list)
    as [(labels & Hcap & _) | (made & e & Ha & Htext & _)].
  { exfalso. exact (captioned_not_infinite _ _ Hcap r Hin' Hinf). }
  exists (calls_before_texts (ps ++ ms)%list ++ made)%list, e.
  rewrite (io_bind_raise _ _ _ _ _ Ha), app_calls.
  split; [reflexivity|].
  apply Forall_app. split; [apply no_savefig_before|].
  apply text_is_no_savefig, Htext.
Qed.


(** Whatever happens, the call leaves the earlier events in place and adds
    calls of the library only. *)
Lemma plot_aqi_bar_trace (df : list SummaryRecord) (out_png : string)
  (tr : list event) :
  exists calls,
    fst (plot_aqi_bar df out_png tr) = (tr ++ map Plt calls)%list.
Proof.
  destruct (plot_aqi_bar_run df out_png tr)
    as [(ps & ms & labels & _ & _ & _ & _ & _ & _ & ->)
       | (made & e & -> & _)]; eexists; reflexivity.
Qed.


End ChartFacts.



(** ** The driver *)

Section DriverFacts.
Context `{Builtins} `{World} `{Matplotlib}.

Lemma fetch_waqi_city_run (token : string) (c : CityQuery) (tr : list event) :
  fetch_waqi_city token (waqi_feed_path c) 25 tr
  = ((tr ++ [HttpGet (feed_url token c)])%list, fetch_outcome token c).
Proof.
  unfold fetch_outcome, fetch_waqi_city, feed_url, io_bind, emit, lift.
  cbn [app].
  destruct (http_get _ 25) as [payload | e]; [|reflexivity].
  destruct payload; try reflexivity.
  destruct (not_ok _); reflexivity.
Qed.

Lemma appended_rows_of_city (token : string) (c : CityQuery) :
  rows_of_city token c (fst (appended token c)) (snd (appended token c)).
Proof.
  unfold rows_of_city, appended.
  destruct (fetch_outcome token c) as [data | e]; cbn [fst snd].
  - apply parse_city_data_rows.
  - split; [|reflexivity]. repeat split.
Qed.

Lemma visit_run (token : string) (c : CityQuery)
  (ss : list SummaryRecord) (ps : list PollutantRecord) (tr : list event) :
  visit token (ss, ps) c tr
  = ((tr ++ [HttpGet (feed_url token c); Sleep (1 # 4)])%list,
     Ok ((ss ++ [fst (appended token c)])%list,
         (ps ++ [snd (appended token c)])%list)).
Proof.
  unfold visit, io_bind, io_try, appended.
  rewrite fetch_waqi_city_run.
  destruct (fetch_outcome token c) as [data | e].
  - unfold lift. rewrite parse_city_data_rows.
    unfold io_ret, emit. cbn [fst snd]. rewrite <- app_assoc. reflexivity.
  - unfold io_ret, emit. cbn [fst snd]. rewrite <- app_assoc. reflexivity.
Qed.

(** The loop never raises and appends the rows of each city in turn. *)
Lemma for_cities_run (token : string) (cs : list CityQuery) :
  forall (ss : list SummaryRecord) (ps : list PollutantRecord)
         (tr : list event),
    for_cities token cs (ss, ps) tr
    = ((tr ++ loop_events token cs)%list,
       Ok ((ss ++ map (fun c => fst (appended token c)) cs)%list,
           (ps ++ map (fun c => snd (appended token c)) cs)%list)).
Proof.
  induction cs as [| c cs IH]; intros ss ps tr.
  - cbn. unfold io_ret. rewrite !app_nil_r. reflexivity.
  - cbn [for_cities]. unfold io_bind. rewrite visit_run, IH.
    cbn [loop_events flat_map map app].
    rewrite <- !app_assoc. reflexivity.
Qed.

Lemma missing_token_run (tr : list event) :
  missing_token tr = ((tr ++ [Print token_diagnostic])%list, Ok 2).
Proof. reflexivity. Qed.

(** Without a usable token nothing but the diagnostic happens. *)
Lemma main_unusable_token (tr : list event) :
  token_unusable (getenv "WAQI_TOKEN") ->
  main tr = ((tr ++ [Print token_diagnostic])%list, Ok 2).
Proof.
  unfold main. intros [-> | ->]; reflexivity.
Qed.





(** With a usable token the run fetches every city, prints the two tables
    and then draws the chart: it returns 0 when the chart is drawn, and the
    exception of the chart goes through otherwise. *)
Lemma main_usable_token (token : string) (tr : list event) :
  getenv "WAQI_TOKEN" = Some token -> py_truthy (PyStr token) = true ->
  main tr
  = match plot_aqi_bar (summaries_of_run token) "aqi_bar.png"
            (tr ++ loop_events token cities ++ tables_printed token)%list
    with
    | (tr', Ok _) =>
        ((tr' ++ [Print (nl ++ "Saved chart: " ++ "aqi_bar.png")])%list,
         Ok 0)
    | (tr', Raise e) => (tr', Raise e)
    end.
Proof.
  intros Henv Htok. unfold main. rewrite Henv, Htok. cbn [negb].
  unfold io_bind at 1. rewrite for_cities_run. cbn [app].
  unfold io_bind, emit, lift, io_ret, tables_printed.
  fold (summaries_of_run token). fold (pollutants_of_run token).
  rewrite <- !app_assoc. cbn [app].
  destruct (plot_aqi_bar (summaries_of_run token) "aqi_bar.png" _)
    as [tr' [[] | e]]; reflexivity.
Qed.

End DriverFacts.

(** ** Properties of the driver *)

Section DriverProperties.
Context `{Builtins} `{World} `{Matplotlib}.

Lemma runtime_error_text (token : string) (c : CityQuery)
  (d : list (string * pyval)) :
  http_get (feed_url token c) 25 = Ok (PyDict d) ->
  not_ok (dict_get d "status") = true ->
  exists e,
    fetch_outcome token c = Raise e
    /\ exn_cls e = RuntimeError /\ exn_str e <> "".
Proof.
  intros Hget Hst.
  unfold fetch_outcome, fetch_waqi_city, io_bind, emit, lift. cbn [app].
  fold (feed_url token c). rewrite Hget, Hst. cbn [snd].
  eexists. split; [reflexivity|]. split; [reflexivity|]. discriminate.
Qed.

(** C4, as the code has it.  Whatever the fetches do, the loop ends
    without an exception after one request and one pause per city, and
    leaves exactly one summary row and one pollutant row per city, in the
    order of the cities.  A city whose fetch succeeds contributes the two
    rows of the parser; a city whose fetch fails contributes a summary row
    with AQI missing, Category Unknown, every optional field missing and
    Error set to the description of the failure, and a pollutant row
    with the City field alone.  The Error text is non-empty whenever that
    description is, as it is for the status failure that the fetch raises
    itself.  A run of [main] with a usable token prints these rows. *)
Theorem one_row_per_city (token : string) (cs : list CityQuery)
  (tr : list event) :
  exists summaries pollutants,
    for_cities token cs ([], []) tr
    = ((tr ++ loop_events token cs)%list, Ok (summaries, pollutants))
    /\ map City summaries = map label cs
    /\ map PCity pollutants = map label cs
    /\ Forall2 (fun c sp => rows_of_city token c (fst sp) (snd sp))
               cs (combine summaries pollutants)
    /\ (forall (c : CityQuery) (e : exn) (s : SummaryRecord),
           degraded_summary c e s ->
           Error s <> None /\ (exn_str e <> "" -> Error s <> Some ""))
    /\ (forall (c : CityQuery) (d : list (string * pyval)),
           http_get (feed_url token c) 25 = Ok (PyDict d) ->
           not_ok (dict_get d "status") = true ->
           exists e, fetch_outcome token c = Raise e /\ exn_str e <> "")
    /\ (cs = cities ->
        getenv "WAQI_TOKEN" = Some token -> token <> "" ->
        In (PrintSummary summaries) (fst (main tr))
        /\ In (PrintPollutants pollutants) (fst (main tr))).
Proof.
  exists (map (fun c => fst (appended token c)) cs),
         (map (fun c => snd (appended token c)) cs).
  split; [exact (for_cities_run token cs [] [] tr)|].
  split; [|split; [|split; [|split; [|split]]]].
  - rewrite map_map. apply map_ext. intro c. unfold appended.
    destruct (fetch_outcome token c); reflexivity.
  - rewrite map_map. apply map_ext. intro c. unfold appended.
    destruct (fetch_outcome token c); reflexivity.
  - induction cs as [| c cs' IH]; cbn; constructor;
      [apply appended_rows_of_city | exact IH].
  - intros c e s (_ & _ & _ & _ & _ & _ & _ & _ & He).
    rewrite He. split; [discriminate|]. intros Hne Heq. apply Hne.
    congruence.
  - intros c d Hget Hst.
    destruct (runtime_error_text token c d Hget Hst) as (e & He & _ & Hne).
    exists e. split; assumption.
  - intros -> Henv Hne.
    assert (Htok : py_truthy (PyStr token) = true).
    { cbn. destruct (String.eqb token "") eqn:E; [|reflexivity].
      apply String.eqb_eq in E. contradiction. }
    rewrite (main_usable_token token tr Henv Htok).
    fold (summaries_of_run token). fold (pollutants_of_run token).
    destruct (plot_aqi_bar_trace (summaries_of_run token) "aqi_bar.png"
                (tr ++ loop_events token cities ++ tables_printed token)%list)
      as (calls & Hcalls).
    destruct (plot_aqi_bar (summaries_of_run token) "aqi_bar.png" _)
      as [tr' [[] | e]]; cbn [fst] in Hcalls |- *; subst tr';
      split; rewrite <- ?app_assoc; apply in_or_app; right;
      apply in_or_app; right; apply in_or_app; left;
      unfold tables_printed; cbn; tauto.
Qed.


(** C10. When the token variable is set to the empty string the run
    does what it does when the variable is absent: it prints the
    diagnostic and ends with exit code 2, and no request is sent. *)
Theorem main_empty_token_as_absent (tr : list event) :
  getenv "WAQI_TOKEN" = Some "" ->
  main tr = missing_token tr
  /\ exists evs,
      main tr = ((tr ++ evs)%list, Ok 2)
      /\ evs = [Print token_diagnostic]
      /\ Forall (fun ev => ~ is_http_get ev) evs.
Proof.
  intro Henv. unfold main. rewrite Henv. cbn [py_truthy String.eqb negb].
  split; [reflexivity|].
  exists [Print token_diagnostic]. split; [reflexivity|].
  split; [reflexivity|]. constructor; [|constructor]. intros [].
Qed.

End DriverProperties.

(** The empty token at work: the variable is set, and the run still stops
    at the diagnostic. *)
Lemma main_empty_token_example :
  @getenv empty_token_world "WAQI_TOKEN" = Some ""
  /\ forall (B : Builtins) (M : Matplotlib) (tr : list event),
      @main B empty_token_world M tr = @missing_token tr
      /\ exists evs,
          @main B empty_token_world M tr = ((tr ++ evs)%list, Ok 2)
          /\ evs = [Print token_diagnostic]
          /\ Forall (fun ev => ~ is_http_get ev) evs.
Proof.
  split; [reflexivity|].
  intros B M tr.
  exact (@main_empty_token_as_absent B empty_token_world M tr eq_refl).
Defined.



(** The run of the written specification: three cities, the second fetch
    fails.  Three summary rows and three pollutant rows come out in the
    order of the cities, the second summary row carries the description of
    the failure, and the third city is still recorded. *)
Lemma three_cities_second_fails :
  @getenv (montreal_fault_world connection_refused) "WAQI_TOKEN" = Some "demo"
  /\ forall (B : Builtins) (tr : list event),
      exists summaries pollutants,
        @for_cities B (montreal_fault_world connection_refused)
                    "demo" cities ([], []) tr
        = ((tr ++ loop_events "demo" cities)%list, Ok (summaries, pollutants))
        /\ map City summaries = map label cities
        /\ map PCity pollutants = map label cities
        /\ map Error summaries = [None; Some "Connection refused"; None]
        /\ map (fun p => List.length (components p)) pollutants = [6; 0; 6]%nat.
Proof.
  split; [reflexivity|].
  intros B tr.
  destruct (@one_row_per_city B (montreal_fault_world connection_refused)
                              accepting_library "demo" cities tr)
    as (ss & ps & Hrun & Hcity & Hpcity & _).
  exists ss, ps. split; [exact Hrun|]. split; [exact Hcity|].
  split; [exact Hpcity|].
  rewrite (@for_cities_run B (montreal_fault_world connection_refused)) in Hrun.
  injection Hrun as <- <-. split; reflexivity.
Defined.

(** C4, as stated, fails: a failure whose description is empty, like the
    interpreter running out of memory, leaves an empty Error text in the
    row of its city. *)
Lemma failure_error_text_can_be_empty :
  exn_str out_of_memory = ""
  /\ forall (B : Builtins) (tr : list event),
      exists summaries pollutants s,
        @for_cities B (montreal_fault_world out_of_memory)
                    "demo" cities ([], []) tr
        = ((tr ++ loop_events "demo" cities)%list, Ok (summaries, pollutants))
        /\ @fetch_outcome B (montreal_fault_world out_of_memory) "demo" montreal
           = Raise out_of_memory
        /\ nth_error summaries 1 = Some s
        /\ City s = "Montreal"
        /\ Error s = Some "".
Proof.
  split; [reflexivity|]. intros B tr.
  rewrite (@for_cities_run B (montreal_fault_world out_of_memory)).
  eexists. eexists. eexists. split; [reflexivity|].
  split; [reflexivity|]. split; [reflexivity|]. split; reflexivity.
Qed.

(** * Further properties *)

(** ** The categorizer *)

Ltac split_bands :=
  unfold aqi_category_us;
  repeat match goal with
         | |- context [float_le_int (Fin ?q) ?n] =>
             let E := fresh "E" in
             destruct (float_le_int (Fin q) n) eqn:E;
             [apply float_le_int_true in E | apply float_le_int_false in E]
         end;
  unfold inject_Z in *.

(** X1. The label of a real number identifies its band: each of the six
    labels is returned on exactly one interval. *)
Theorem aqi_category_us_bands (n : Q) :
  (aqi_category_us (Fin n) = "Good" <-> (n <= 50)%Q)
  /\ (aqi_category_us (Fin n) = "Moderate" <-> (50 < n)%Q /\ (n <= 100)%Q)
  /\ (aqi_category_us (Fin n) = "Unhealthy (Sensitive)" <->
      (100 < n)%Q /\ (n <= 150)%Q)
  /\ (aqi_category_us (Fin n) = "Unhealthy" <-> (150 < n)%Q /\ (n <= 200)%Q)
  /\ (aqi_category_us (Fin n) = "Very Unhealthy" <->
      (200 < n)%Q /\ (n <= 300)%Q)
  /\ (aqi_category_us (Fin n) = "Hazardous" <-> (300 < n)%Q).
Proof.
  split_bands;
    repeat apply conj; intros;
    repeat match goal with
           | H : _ /\ _ |- _ => destruct H
           end;
    first [reflexivity | discriminate | lra | exfalso; lra].
Qed.

(** X2. The categorizer is monotone: a float that is not smaller gets a
    label that is not milder, the infinities included. *)
Theorem aqi_category_us_monotone (a b : pyfloat) :
  float_leb a b = true -> (severity a <= severity b)%nat.
Proof.
  unfold severity.
  destruct a as [x | | |], b as [y | | |]; cbn [float_leb]; intro Hab;
    try discriminate Hab.
  - apply Qle_bool_iff in Hab.
    split_bands; first [cbn; lia | exfalso; lra].
  - split_bands; cbn; lia.
  - cbn. lia.
  - apply Nat.le_0_l.
  - cbn. lia.
  - cbn. lia.
Qed.

(** Between 40 and 120 the label goes from Good to Unhealthy (Sensitive). *)
Lemma aqi_category_us_monotone_40_120 :
  float_leb (Fin 40) (Fin 120) = true
  /\ (severity (Fin 40) <= severity (Fin 120))%nat
  /\ severity (Fin 40) = 0%nat /\ severity (Fin 120) = 2%nat.
Proof.
  split; [reflexivity|].
  split; [exact (aqi_category_us_monotone (Fin 40) (Fin 120) eq_refl)|].
  split; reflexivity.
Defined.

(** ** The nested lookup *)

Lemma safe_get_none (keys : list key) : safe_get PyNone keys = Ok PyNone.
Proof. destruct keys; reflexivity. Qed.

(** X3. Lookups compose: looking a concatenated key sequence up is looking
    the first part up and then the second part in what was found. *)
Theorem safe_get_app (keys keys' : list key) :
  forall d : pyval,
    safe_get d (keys ++ keys')%list
    = (v <- safe_get d keys ;; safe_get v keys').
Proof.
  induction keys as [| k keys IH]; intro d; [reflexivity|].
  cbn [app safe_get].
  destruct d; cbn [bind]; try (rewrite safe_get_none; reflexivity).
  destruct (dict_contains entries k) eqn:Hin; cbn [negb].
  - destruct (dict_getitem_of_contains _ _ Hin) as (v & -> & _).
    cbn [bind]. apply IH.
  - cbn [bind]. rewrite safe_get_none. reflexivity.
Qed.

Lemma traverse_int_key (keys : list key) (i : Z) :
  In (KInt i) keys -> forall d : pyval, traverse d keys = None.
Proof.
  induction keys as [| k keys IH]; intros Hin d; [contradiction|].
  cbn [traverse]. destruct Hin as [-> | Hin].
  - rewrite lookup_key_int. reflexivity.
  - destruct (lookup_key d k); [apply IH, Hin | reflexivity].
Qed.

(** X4. A key sequence with an integer in it finds nothing, whatever the
    data: the lookup goes through mappings only, and their keys are
    strings. *)
Theorem safe_get_int_key (d : pyval) (keys : list key) (i : Z) :
  In (KInt i) keys -> safe_get d keys = Ok PyNone.
Proof.
  intro Hin. rewrite safe_get_traverse. unfold field.
  rewrite (traverse_int_key keys i Hin). reflexivity.
Qed.

(** The path to the first attribution of a response that has one. *)
Lemma safe_get_int_key_attribution :
  In (KInt 0) [KStr "attributions"; KInt 0; KStr "name"]
  /\ first_attribution_name with_attribution = Some (PyStr "CETESB")
  /\ safe_get with_attribution [KStr "attributions"; KInt 0; KStr "name"]
     = Ok PyNone.
Proof.
  assert (Hin : In (KInt 0) [KStr "attributions"; KInt 0; KStr "name"])
    by (right; left; reflexivity).
  split; [exact Hin|]. split; [reflexivity|].
  exact (safe_get_int_key with_attribution _ 0 Hin).
Defined.

(** ** The fetch *)

Section FetchProperties.
Context `{Builtins} `{World}.

Ltac no_data_here :=
  cbv beta iota;
  split;
  [ let Heq := fresh "Heq" in intro Heq; inversion Heq
  | let d' := fresh "d" in
    let Hd := fresh "Hd" in
    let Hs := fresh "Hs" in
    let Hdata := fresh "Hdata" in
    intros (d' & Hd & Hs & Hdata); inversion Hd; subst; congruence ].

(** X5. A fetch sends one request, to the feed address of the city with
    the token in it, and gives data back exactly when the body is a mapping
    whose status is the string ok and which has a data entry; the data is
    that entry, whatever it is. *)
Theorem fetch_waqi_city_success (token feed_path : string) (timeout : Z)
  (tr : list event) (data : pyval) :
  fetch_waqi_city token feed_path timeout tr
  = ((tr ++ [HttpGet (url_of token feed_path)])%list, Ok data)
  <-> exists d,
      http_get (url_of token feed_path) timeout = Ok (PyDict d)
      /\ dict_find d "status" = Some (PyStr "ok")
      /\ dict_find d "data" = Some data.
Proof.
  unfold fetch_waqi_city, io_bind, emit, lift.
  fold (url_of token feed_path).
  destruct (http_get (url_of token feed_path) timeout)
    as [payload | e0] eqn:Hget; [|no_data_here].
  destruct payload as [| | | | | | d]; try no_data_here.
  unfold not_ok, dict_get.
  destruct (dict_find d "status") as [st |] eqn:Hst; [|no_data_here].
  destruct st as [| | | | s | |]; try no_data_here.
  destruct (String.eqb s "ok") eqn:E; cbn [negb].
  - apply String.eqb_eq in E. subst s.
    unfold dict_getitem.
    destruct (dict_find d "data") as [v |] eqn:Hv; [|no_data_here].
    split.
    + intro Heq. inversion Heq. subst. exists d.
      repeat split; assumption.
    + intros (d' & Hd & Hs & Hdata). inversion Hd. subst.
      unfold lift. congruence.
  - split; [intro Heq; inversion Heq|].
    intros (d' & Hd & Hs & Hdata). inversion Hd. subst.
    rewrite Hst in Hs. inversion Hs. subst.
    rewrite String.eqb_refl in E. discriminate E.
Qed.

Ltac bad_status_leaf d Hst :=
  cbv beta iota; split;
  [ let Heq := fresh "Heq" in
    intro Heq; inversion Heq; right; right; left; exists d;
    split; [reflexivity|]; split;
    [ unfold dict_get in Hst; destruct (dict_find d "status"); congruence
    | unfold bad_status; rewrite Hst; reflexivity ]
  | let Hr := fresh "Hr" in
    let p := fresh "p" in
    let Hp := fresh "Hp" in
    let Hn := fresh "Hn" in
    let d' := fresh "d" in
    let Hne := fresh "Hne" in
    let Hok := fresh "Hok" in
    intros [Hr | [(p & Hp & Hn & _)
                 | [(d' & Hp & Hne & ->) | (d' & Hp & Hok & _)]]];
    [ discriminate Hr
    | inversion Hp; subst; exfalso; exact (Hn d eq_refl)
    | inversion Hp; subst; unfold bad_status; rewrite Hst; reflexivity
    | inversion Hp; subst; unfold dict_get in Hst; rewrite Hok in Hst;
      congruence ] ].

(** X6. A fetch fails in four ways and no other: with the exception of the
    request itself, unchanged; with an AttributeError when the body is not
    a mapping; with a RuntimeError that quotes status and data when the
    status is not the string ok; with a KeyError when the status is ok and
    there is no data entry.  The request has been sent in each case, and
    none is sent again. *)
Theorem fetch_waqi_city_failure (token feed_path : string) (timeout : Z)
  (tr : list event) (e : exn) :
  fetch_waqi_city token feed_path timeout tr
  = ((tr ++ [HttpGet (url_of token feed_path)])%list, Raise e)
  <-> http_get (url_of token feed_path) timeout = Raise e
      \/ (exists payload,
             http_get (url_of token feed_path) timeout = Ok payload
             /\ (forall d, payload <> PyDict d)
             /\ e = no_get_attribute payload)
      \/ (exists d,
             http_get (url_of token feed_path) timeout = Ok (PyDict d)
             /\ dict_find d "status" <> Some (PyStr "ok")
             /\ e = bad_status d)
      \/ (exists d,
             http_get (url_of token feed_path) timeout = Ok (PyDict d)
             /\ dict_find d "status" = Some (PyStr "ok")
             /\ dict_find d "data" = None
             /\ e = no_data_key).
Proof.
  unfold fetch_waqi_city, io_bind, emit, lift.
  fold (url_of token feed_path).
  destruct (http_get (url_of token feed_path) timeout)
    as [payload | e0] eqn:Hget.
  2: { split.
       - intro Heq. inversion Heq. left. reflexivity.
       - intros [Hr | [(p & Hp & _) | [(d & Hp & _) | (d & Hp & _)]]];
           try discriminate Hp.
         inversion Hr. reflexivity. }
  destruct payload as [| | | | | | d];
    try (split;
         [ intro Heq; inversion Heq; right; left; eexists;
           split; [reflexivity|]; split; [intros d Hd; discriminate Hd|];
           reflexivity
         | intros [Hr | [(p & Hp & Hn & ->) | [(d & Hp & _) | (d & Hp & _)]]];
           try discriminate Hp; try discriminate Hr;
           inversion Hp; subst; reflexivity ]).
  unfold not_ok.
  destruct (dict_get d "status") as [| | | | s | |] eqn:Hst;
    try (bad_status_leaf d Hst).
  destruct (String.eqb s "ok") eqn:E; cbn [negb].
  2: { apply String.eqb_neq in E. bad_status_leaf d Hst. }
  apply String.eqb_eq in E. subst s.
  assert (Hfind : dict_find d "status" = Some (PyStr "ok")).
  { unfold dict_get in Hst. destruct (dict_find d "status"); congruence. }
  unfold dict_getitem.
  destruct (dict_find d "data") as [v |] eqn:Hdata; cbv beta iota.
  - split; [intro Heq; inversion Heq|].
    intros [Hr | [(p & Hp & Hn & _)
                 | [(d' & Hp & Hne & _) | (d' & Hp & _ & Hnone & _)]]].
    + discriminate Hr.
    + inversion Hp; subst. exfalso. exact (Hn d eq_refl).
    + inversion Hp; subst. contradiction.
    + inversion Hp; subst. congruence.
  - split.
    + intro Heq. inversion Heq. right; right; right. exists d.
      repeat split; assumption || reflexivity.
    + intros [Hr | [(p & Hp & Hn & _)
                   | [(d' & Hp & Hne & _) | (d' & Hp & _ & _ & ->)]]].
      * discriminate Hr.
      * inversion Hp; subst. exfalso. exact (Hn d eq_refl).
      * inversion Hp; subst. contradiction.
      * reflexivity.
Qed.

End FetchProperties.

(** ** The parser *)

Lemma field_of_dict (d : list (string * pyval)) (k : string)
  (keys : list key) :
  field (PyDict d) (KStr k :: keys)
  = match dict_find d k with
    | Some v => field v keys
    | None => PyNone
    end.
Proof.
  unfold field. cbn [traverse lookup_key].
  destruct (dict_find d k); reflexivity.
Qed.

(** Integers of up to 53 bits convert exactly. *)
Lemma float_of_int_exact (n : Z) :
  Z.abs n < 2 ^ 53 -> float_of_int n = Ok (Fin (inject_Z n)).
Proof.
  intro Hn. unfold float_of_int.
  assert (He : Z.log2 (Z.abs n) + 1 - 53 <= 0).
  { destruct (Z.eq_dec (Z.abs n) 0) as [-> | Hz]; [cbn; lia|].
    assert (Z.log2 (Z.abs n) < 53) by (apply Z.log2_lt_pow2; lia).
    lia. }
  apply Z.leb_le in He. cbv zeta. rewrite He. reflexivity.
Qed.

(** Integers from [2 ** 1024] on do not convert. *)
Lemma float_of_int_overflow (n : Z) :
  2 ^ 1024 <= Z.abs n -> exists e, float_of_int n = Raise e.
Proof.
  intro Hn. unfold float_of_int.
  set (a := Z.abs n) in *.
  set (L := Z.log2 a).
  assert (Hpos : 0 < a) by (pose proof (Z.pow_pos_nonneg 2 1024); lia).
  assert (HL : 1024 <= L) by (apply Z.log2_le_pow2; lia).
  assert (Hspec : 2 ^ L <= a) by (apply Z.log2_spec; exact Hpos).
  set (e := L + 1 - 53).
  assert (He : 0 < e) by (unfold e; lia).
  cbv zeta.
  replace (e <=? 0) with false by (symmetry; apply Z.leb_gt; exact He).
  set (q := Z.shiftr a e).
  assert (Hq : 2 ^ 52 <= q).
  { unfold q. rewrite Z.shiftr_div_pow2 by lia.
    replace (2 ^ 52) with (2 ^ L / 2 ^ e).
    - apply Z.div_le_mono; [apply Z.pow_pos_nonneg; lia | exact Hspec].
    - rewrite <- Z.pow_sub_r by lia. f_equal. unfold e. lia. }
  set (q' := if (Z.shiftl 1 (e - 1) <? Z.land a (Z.ones e))
                || ((Z.land a (Z.ones e) =? Z.shiftl 1 (e - 1)) && Z.odd q)
             then q + 1 else q).
  assert (Hq' : q <= q') by (unfold q'; destruct (_ || _); lia).
  assert (Hm : 2 ^ 1024 <= Z.shiftl q' e).
  { rewrite Z.shiftl_mul_pow2 by lia.
    apply Z.le_trans with (2 ^ L); [apply Z.pow_le_mono_r; lia|].
    replace (2 ^ L) with (2 ^ 52 * 2 ^ e)
      by (rewrite <- Z.pow_add_r by lia; f_equal; unfold e; lia).
    apply Z.mul_le_mono_nonneg_r; [apply Z.pow_nonneg; lia | lia]. }
  apply Z.leb_le in Hm. rewrite Hm. eexists. reflexivity.
Qed.

Section ParserMore.
Context `{Builtins}.

(** X7. The rows of a response depend on four of its entries only: aqi,
    time, city and iaqi.  Two responses that agree on these give the same
    two rows, whatever else they hold, the attributions included. *)
Theorem parse_city_data_reads_four_entries (label : string)
  (d d' : list (string * pyval)) :
  (forall k, In k ["aqi"; "time"; "city"; "iaqi"] ->
             dict_find d k = dict_find d' k) ->
  parse_city_data label (PyDict d) = parse_city_data label (PyDict d').
Proof.
  intro Hsame.
  assert (Haqi : dict_find d "aqi" = dict_find d' "aqi")
    by (apply Hsame; cbn; tauto).
  assert (Htime : dict_find d "time" = dict_find d' "time")
    by (apply Hsame; cbn; tauto).
  assert (Hcity : dict_find d "city" = dict_find d' "city")
    by (apply Hsame; cbn; tauto).
  assert (Hiaqi : dict_find d "iaqi" = dict_find d' "iaqi")
    by (apply Hsame; cbn; tauto).
  rewrite !parse_city_data_rows. unfold summary_of, pollutants_of.
  rewrite !field_attributions, !field_of_dict.
  rewrite Haqi, Htime, Hcity, Hiaqi. reflexivity.
Qed.

Lemma rows_of_no_mapping (label : string) (data : pyval) :
  (forall d, data = PyDict d -> d = []) ->
  summary_of label data = blank_summary label
  /\ pollutants_of label data = blank_pollutants label.
Proof.
  intro Hd. destruct data as [| | | | | | d]; try (split; reflexivity).
  rewrite (Hd d eq_refl). split; reflexivity.
Qed.

(** X8. A response that is not a mapping, or is the empty one, gives the
    blank rows: AQI missing, Category Unknown, nothing else but the label,
    six missing pollutants, and no Error. *)
Theorem parse_city_data_blank (label : string) (data : pyval) :
  (forall d, data = PyDict d -> d = []) ->
  parse_city_data label data
  = Ok (blank_summary label, blank_pollutants label).
Proof.
  intro Hd. rewrite parse_city_data_rows.
  destruct (rows_of_no_mapping label data Hd) as [-> ->]. reflexivity.
Qed.

(** X9. An integer AQI of up to 53 bits is kept exactly, and the category
    is the label of that integer. *)
Theorem parse_city_data_int_aqi (label : string)
  (d : list (string * pyval)) (n : Z) :
  dict_find d "aqi" = Some (PyInt n) -> Z.abs n < 2 ^ 53 ->
  exists s p,
    parse_city_data label (PyDict d) = Ok (s, p)
    /\ AQI s = Fin (inject_Z n)
    /\ Category s = aqi_category_us (Fin (inject_Z n)).
Proof.
  intros Haqi Hn. eexists. eexists.
  split; [apply parse_city_data_rows|].
  unfold summary_of. cbn [AQI Category].
  rewrite field_of_dict, Haqi. unfold field, coerce. cbn [traverse or_missing py_float].
  rewrite (float_of_int_exact n Hn). split; reflexivity.
Qed.

(** X10. An integer AQI from [2 ** 1024] on is beyond the floats: the
    conversion overflows, and the row has a missing AQI and the category
    Unknown instead of a failure. *)
Theorem parse_city_data_huge_aqi (label : string)
  (d : list (string * pyval)) (n : Z) :
  dict_find d "aqi" = Some (PyInt n) -> 2 ^ 1024 <= Z.abs n ->
  exists s p,
    parse_city_data label (PyDict d) = Ok (s, p)
    /\ AQI s = NaN /\ Category s = "Unknown" /\ Error s = None.
Proof.
  intros Haqi Hn. eexists. eexists.
  split; [apply parse_city_data_rows|].
  unfold summary_of. cbn [AQI Category Error].
  rewrite field_of_dict, Haqi. unfold field, coerce. cbn [traverse or_missing py_float].
  destruct (float_of_int_overflow n Hn) as (e & ->).
  repeat split.
Qed.

(** X11. The pollutants are all missing unless the iaqi entry is a
    non-empty mapping: a null, a number, a string, a list or an empty
    mapping in its place gives six missing values. *)
Theorem pollutants_need_a_mapping (label : string) (data : pyval) :
  (forall m, field data [KStr "iaqi"] = PyDict m -> m = []) ->
  exists s p,
    parse_city_data label data = Ok (s, p)
    /\ components p = map (fun k => (k, None)) pollutant_keys.
Proof.
  intro Hm. eexists. eexists.
  split; [apply parse_city_data_rows|].
  unfold pollutants_of, present. cbn [components].
  destruct (field data [KStr "iaqi"]) as [| | | | | | m] eqn:Hf;
    try (destruct (py_truthy _); reflexivity).
  rewrite (Hm m eq_refl). reflexivity.
Qed.

End ParserMore.

(** Dropping the attributions of a response changes nothing in its rows. *)
Lemma parse_city_data_without_attribution :
  (forall k, In k ["aqi"; "time"; "city"; "iaqi"] ->
             dict_find without_attribution k
             = match with_attribution with
               | PyDict d => dict_find d k
               | _ => None
               end)
  /\ forall B : Builtins,
      @parse_city_data B "Sao Paulo" (PyDict without_attribution)
      = @parse_city_data B "Sao Paulo" with_attribution.
Proof.
  assert (Hsame : forall k, In k ["aqi"; "time"; "city"; "iaqi"] ->
                            dict_find without_attribution k
                            = match with_attribution with
                              | PyDict d => dict_find d k
                              | _ => None
                              end).
  { intros k [<- | [<- | [<- | [<- | []]]]]; reflexivity. }
  split; [exact Hsame|]. intro B.
  exact (@parse_city_data_reads_four_entries B "Sao Paulo" _ _ Hsame).
Defined.

(** A body whose data is [null] gives the blank rows. *)
Lemma parse_city_data_blank_null :
  (forall d, PyNone = PyDict d -> d = [])
  /\ forall B : Builtins,
      @parse_city_data B "Seattle" PyNone
      = Ok (blank_summary "Seattle", blank_pollutants "Seattle").
Proof.
  assert (Hd : forall d : list (string * pyval), PyNone = PyDict d -> d = [])
    by (intros d Hd; discriminate Hd).
  split; [exact Hd|]. intro B.
  exact (@parse_city_data_blank B "Seattle" PyNone Hd).
Defined.

(** An AQI of 42. *)
Lemma parse_city_data_int_aqi_42 :
  dict_find without_attribution "aqi" = Some (PyInt 42)
  /\ Z.abs 42 < 2 ^ 53
  /\ forall B : Builtins,
      exists s p,
        @parse_city_data B "Sao Paulo" (PyDict without_attribution) = Ok (s, p)
        /\ AQI s = Fin (inject_Z 42)
        /\ Category s = aqi_category_us (Fin (inject_Z 42)).
Proof.
  assert (Hn : Z.abs 42 < 2 ^ 53) by reflexivity.
  split; [reflexivity|]. split; [exact Hn|]. intro B.
  exact (@parse_city_data_int_aqi B "Sao Paulo" without_attribution 42
           eq_refl Hn).
Defined.

(** An AQI of [2 ** 1024]. *)
Lemma parse_city_data_huge_aqi_example :
  dict_find [("aqi", PyInt (2 ^ 1024))] "aqi" = Some (PyInt (2 ^ 1024))
  /\ 2 ^ 1024 <= Z.abs (2 ^ 1024)
  /\ forall B : Builtins,
      exists s p,
        @parse_city_data B "Seattle" (PyDict [("aqi", PyInt (2 ^ 1024))])
        = Ok (s, p)
        /\ AQI s = NaN /\ Category s = "Unknown" /\ Error s = None.
Proof.
  assert (Hn : 2 ^ 1024 <= Z.abs (2 ^ 1024)) by (intro Hc; discriminate Hc).
  split; [reflexivity|]. split; [exact Hn|]. intro B.
  exact (@parse_city_data_huge_aqi B "Seattle" [("aqi", PyInt (2 ^ 1024))]
           (2 ^ 1024) eq_refl Hn).
Defined.

(** A response whose iaqi entry is a list. *)
Lemma pollutants_need_a_mapping_list :
  (forall m,
      field (PyDict [("iaqi", PyList [PyInt 12])]) [KStr "iaqi"] = PyDict m ->
      m = [])
  /\ forall B : Builtins,
      exists s p,
        @parse_city_data B "Seattle" (PyDict [("iaqi", PyList [PyInt 12])])
        = Ok (s, p)
        /\ components p = map (fun k => (k, None)) pollutant_keys.
Proof.
  assert (Hm : forall m,
             field (PyDict [("iaqi", PyList [PyInt 12])]) [KStr "iaqi"]
             = PyDict m -> m = [])
    by (intros m Hm; discriminate Hm).
  split; [exact Hm|]. intro B.
  exact (@pollutants_need_a_mapping B "Seattle" _ Hm).
Defined.

(** ** The chart *)

(** X12. Without a row the call raises the KeyError of the sort and makes
    no call of the library.  With an infinite AQI it raises before
    anything is saved, whatever the library does.  When it returns it has
    made the calls of the chart for the sorted rows, with one text per row
    and the file saved; when it raises there was no row, or an infinite
    AQI, or the library raised the exception. *)
Theorem plot_aqi_bar_outcomes `{Builtins} `{Matplotlib}
  (df : list SummaryRecord) (out_png : string) (tr : list event) :
  plot_aqi_bar [] out_png tr = (tr, Raise (Exn KeyError "'AQI'"))
  /\ ((exists r, In r df /\ infinite (AQI r)) ->
      exists made e,
        plot_aqi_bar df out_png tr = ((tr ++ map Plt made)%list, Raise e)
        /\ Forall (fun call => ~ is_savefig_call call) made)
  /\ (forall tr' : list event,
         plot_aqi_bar df out_png tr = (tr', Ok tt) ->
         exists df2 labels,
           Permutation df df2
           /\ List.length labels = List.length df
           /\ tr' = (tr ++ map Plt (chart_calls df2 labels out_png))%list
           /\ In (Savefig out_png 180) (chart_calls df2 labels out_png))
  /\ (forall (tr' : list event) (e : exn),
         plot_aqi_bar df out_png tr = (tr', Raise e) ->
         df = []
         \/ (exists r, In r df /\ infinite (AQI r))
         \/ library_raised e).
Proof.
  split; [reflexivity|]. split; [|split].
  - intro Hinf. apply plot_aqi_bar_stops. right. exact Hinf.
  - intros tr' Hok.
    destruct (plot_aqi_bar_run df out_png tr)
      as [(ps & ms & labels & _ & Hperm & _ & _ & _ & Hcap & Hrun)
         | (made & e & Hrun & _)]; [|congruence].
    exists (ps ++ ms)%list, labels. split; [exact Hperm|].
    split; [|split; [congruence|]].
    + rewrite (Permutation_length Hperm). symmetry.
      exact (Forall2_length Hcap).
    + unfold chart_calls. apply in_or_app. right. apply in_or_app. right.
      unfold calls_after_texts. cbn. tauto.
  - intros tr' e Hraise.
    destruct (plot_aqi_bar_run df out_png tr)
      as [(ps & ms & labels & _ & _ & _ & _ & _ & _ & Hrun)
         | (made & e' & Hrun & Hwhy)]; [congruence|].
    rewrite Hrun in Hraise. inversion Hraise. subst. exact Hwhy.
Qed.

(** ** The loop and the run *)

Lemma requests_of_app (a b : list event) :
  requests_of (a ++ b)%list = (requests_of a ++ requests_of b)%list.
Proof.
  induction a as [| ev a IH]; [reflexivity|].
  destruct ev; cbn; rewrite IH; reflexivity.
Qed.

Lemma requests_of_loop_events (token : string) (cs : list CityQuery) :
  requests_of (loop_events token cs) = map (feed_url token) cs.
Proof.
  induction cs as [| c cs IH]; [reflexivity|].
  cbn. rewrite <- IH. reflexivity.
Qed.

Lemma requests_of_calls (calls : list plot_call) :
  requests_of (map Plt calls) = [].
Proof. induction calls as [| call calls IH]; [reflexivity | exact IH]. Qed.

Section RunProperties.
Context `{Builtins} `{World} `{Matplotlib}.

Lemma fetch_outcome_ok (token : string) (c : CityQuery)
  (d : list (string * pyval)) (data : pyval) :
  http_get (feed_url token c) 25 = Ok (PyDict d) ->
  dict_find d "status" = Some (PyStr "ok") ->
  dict_find d "data" = Some data ->
  fetch_outcome token c = Ok data.
Proof.
  intros Hget Hst Hdata.
  unfold fetch_outcome, fetch_waqi_city, io_bind, emit, lift. cbn [app].
  fold (feed_url token c). rewrite Hget.
  unfold not_ok, dict_get, dict_getitem. rewrite Hst, Hdata. reflexivity.
Qed.

(** X13. In the rows the loop leaves, the Error field marks the failed
    fetches exactly; a row with an Error has a missing AQI; every row has
    the category Unknown exactly when its AQI is missing; and the pollutant
    row of a city has no component exactly when its fetch failed, six
    otherwise. *)
Theorem for_cities_rows_invariant (token : string) (cs : list CityQuery)
  (tr : list event) :
  exists summaries pollutants,
    for_cities token cs ([], []) tr
    = ((tr ++ loop_events token cs)%list, Ok (summaries, pollutants))
    /\ Forall2
         (fun c sp =>
            (Error (fst sp) = None <->
             exists data, fetch_outcome token c = Ok data)
            /\ (Error (fst sp) <> None -> AQI (fst sp) = NaN)
            /\ (Category (fst sp) = "Unknown" <-> AQI (fst sp) = NaN)
            /\ (components (snd sp) = [] <-> Error (fst sp) <> None)
            /\ (Error (fst sp) = None ->
                map fst (components (snd sp)) = pollutant_keys))
         cs (combine summaries pollutants).
Proof.
  exists (map (fun c => fst (appended token c)) cs),
         (map (fun c => snd (appended token c)) cs).
  split; [exact (for_cities_run token cs [] [] tr)|].
  induction cs as [| c cs IH]; cbn [map combine]; constructor; [|exact IH].
  cbn [fst snd]. unfold appended.
  destruct (fetch_outcome token c) as [data | e]; cbn [fst snd].
  - unfold summary_of, pollutants_of.
    cbn [Error AQI Category components].
    split; [split; [intros _; exists data; reflexivity | reflexivity]|].
    split; [intro Hne; exfalso; apply Hne; reflexivity|].
    split.
    + destruct (coerce _) as [f |]; [|split; reflexivity].
      destruct (isnan f) eqn:E.
      * split; [intros _; apply isnan_true_iff, E | reflexivity].
      * split; [intro Hu; exfalso; exact (aqi_category_us_not_unknown f Hu)|].
        intros ->. discriminate E.
    + split; [|intros _; reflexivity].
      split; [intro Hc; discriminate Hc|].
      intro Hne. exfalso. apply Hne. reflexivity.
  - cbn [failure_summary failure_pollutants Error AQI Category components].
    split; [split; [intro Hc; discriminate Hc|intros (data & Hd); discriminate Hd]|].
    split; [reflexivity|]. split; [split; reflexivity|].
    split; [split; [intros _ Hc; discriminate Hc | reflexivity]|].
    intro Hc. discriminate Hc.
Qed.

(** X14. A body with the status ok whose data is null, or any other value
    that is not a non-empty mapping, is not a failure: the city gets the
    blank rows, without an Error. *)
Theorem empty_data_is_no_failure (token : string) (c : CityQuery)
  (d : list (string * pyval)) (data : pyval) (tr : list event) :
  http_get (feed_url token c) 25 = Ok (PyDict d) ->
  dict_find d "status" = Some (PyStr "ok") ->
  dict_find d "data" = Some data ->
  (forall m, data = PyDict m -> m = []) ->
  for_cities token [c] ([], []) tr
  = ((tr ++ [HttpGet (feed_url token c); Sleep (1 # 4)])%list,
     Ok ([blank_summary (label c)], [blank_pollutants (label c)])).
Proof.
  intros Hget Hst Hdata Hblank.
  rewrite for_cities_run. cbn [loop_events flat_map map app].
  unfold appended. rewrite (fetch_outcome_ok token c d data Hget Hst Hdata).
  destruct (rows_of_no_mapping (label c) data Hblank) as [-> ->].
  reflexivity.
Qed.

(** X15. A run requests nothing without a usable token and, with one,
    exactly the feeds of the three cities, once each and in order, whatever
    the answers are: no request is repeated.  Its exit code is 0 or 2. *)
Theorem main_requests (tr : list event) :
  requests_of (fst (main tr))
  = (requests_of tr
       ++ match getenv "WAQI_TOKEN" with
          | Some token =>
              if String.eqb token "" then []
              else [url_of token "sao%20paulo"; url_of token "montreal";
                    url_of token "seattle"]
          | None => []
          end)%list
  /\ (forall n : Z, snd (main tr) = Ok n -> n = 0 \/ n = 2).
Proof.
  destruct (getenv "WAQI_TOKEN") as [token |] eqn:Henv.
  - destruct (String.eqb token "") eqn:E.
    + apply String.eqb_eq in E. subst token.
      rewrite (main_unusable_token tr (or_intror Henv)). cbn [fst snd].
      rewrite requests_of_app. split; [reflexivity|].
      intros n Hn. inversion Hn. right. reflexivity.
    + assert (Htok : py_truthy (PyStr token) = true)
        by (cbn; rewrite E; reflexivity).
      rewrite (main_usable_token token tr Henv Htok).
      destruct (plot_aqi_bar_trace (summaries_of_run token) "aqi_bar.png"
                  (tr ++ loop_events token cities
                      ++ tables_printed token)%list)
        as (calls & Hcalls).
      destruct (plot_aqi_bar (summaries_of_run token) "aqi_bar.png" _)
        as [tr' [[] | e]]; cbn [fst snd] in Hcalls |- *; subst tr';
        rewrite !requests_of_app, requests_of_loop_events,
          requests_of_calls;
        (split; [|intros n Hn; inversion Hn; left; reflexivity]);
        unfold tables_printed, cities;
        cbn [requests_of map app]; rewrite ?app_nil_r; reflexivity.
  - rewrite (main_unusable_token tr (or_introl Henv)). cbn [fst snd].
    rewrite requests_of_app. split; [reflexivity|].
    intros n Hn. inversion Hn. right. reflexivity.
Qed.

End RunProperties.

(** A body with null data at work. *)
Lemma empty_data_is_no_failure_null :
  @http_get (uniform_world (PyDict null_data_payload))
            (feed_url "demo" montreal) 25
  = Ok (PyDict null_data_payload)
  /\ dict_find null_data_payload "status" = Some (PyStr "ok")
  /\ dict_find null_data_payload "data" = Some PyNone
  /\ (forall m, PyNone = PyDict m -> m = [])
  /\ forall (B : Builtins) (tr : list event),
      @for_cities B (uniform_world (PyDict null_data_payload))
                  "demo" [montreal] ([], []) tr
      = ((tr ++ [HttpGet (feed_url "demo" montreal); Sleep (1 # 4)])%list,
         Ok ([blank_summary "Montreal"], [blank_pollutants "Montreal"])).
Proof.
  assert (Hm : forall m : list (string * pyval), PyNone = PyDict m -> m = [])
    by (intros m Hm; discriminate Hm).
  split; [reflexivity|]. split; [reflexivity|]. split; [reflexivity|].
  split; [exact Hm|]. intros B tr.
  exact (@empty_data_is_no_failure
           B (uniform_world (PyDict null_data_payload))
           "demo" montreal null_data_payload PyNone tr
           eq_refl eq_refl eq_refl Hm).
Defined.
